(** * web_plsql: the gateway protocol engine of [src/procedure.ts]

    A shallow embedding of [invokeProcedure] and of the plan builders it
    calls ([getProcedure], [getVarArgsPara], [getFixArgsPara],
    [getArguments]), followed by the properties of the design document
    that concern them.

    Conventions of the embedding.
    - A JavaScript object whose property order matters (the argument
      mapping, the CGI mapping, a bindings object) is an association
      list in enumeration order; [obj_set] is property assignment.
    - The argument-type object of [getArguments] is only ever read by
      key, so it is a [gmap].
    - The asynchronous function body is sequential: every call of a
      collaborator is awaited, except that of [uploadFiles], whose
      promise is dropped; so a computation is the list of collaborator
      calls it made together with the value it resolved to or the value
      it threw.
    - [trace.write] only feeds the tracing collaborator and is left out. *)

From stdpp Require Import base option list strings pretty gmap.
From Stdlib Require Import ZArith Ascii String.

Local Open Scope string_scope.
Local Open Scope Z_scope.
Local Open Scope list_scope.

(** ** JavaScript values used by the module *)

(** [type argObjType = { [key: string]: string | Array<string> }] *)
Inductive argValue : Type :=
  | ArgString (s : string)
  | ArgArray (items : list string).

Definition isArray (v : argValue) : bool :=
  match v with ArgArray _ => true | ArgString _ => false end.

(** An object as the list of its own enumerable properties. *)
Definition obj (A : Type) : Type := list (string * A).

Definition argObjType : Type := obj argValue.

Fixpoint obj_get {A} (k : string) (o : obj A) : option A :=
  match o with
  | [] => None
  | (k', v) :: o' => if String.eqb k' k then Some v else obj_get k o'
  end.

(** [o[k] = v]: an existing property keeps its place, a new one is
    appended. *)
Fixpoint obj_set {A} (k : string) (v : A) (o : obj A) : obj A :=
  match o with
  | [] => [(k, v)]
  | (k', v') :: o' =>
      if String.eqb k' k then (k, v) :: o' else (k', v') :: obj_set k v o'
  end.

Definition keys {A} (o : obj A) : list string := map fst o.
Definition values {A} (o : obj A) : list A := map snd o.

(** [Object.assign(target, source)] *)
Definition assign {A} (target source : obj A) : obj A :=
  fold_left (fun t kv => obj_set (fst kv) (snd kv) t) source target.

(** [s.substring(1)] *)
Definition substring1 (s : string) : string :=
  match s with
  | EmptyString => EmptyString
  | String _ rest => rest
  end.

(** [s.substring(0, 1)] *)
Definition substring01 (s : string) : string :=
  match s with
  | EmptyString => EmptyString
  | String c _ => String c EmptyString
  end.

(** [lines.join('')] *)
Definition join (lines : list string) : string :=
  fold_right String.append EmptyString lines.

(** ** Bind descriptors of the database driver *)

Inductive Dir : Type := BIND_IN | BIND_OUT | BIND_INOUT.
Inductive DbType : Type := STRING | NUMBER | BLOB.

(** A large-object handle of the driver, and the bytes read from one. *)
Inductive Lob : Type := LobHandle (id : nat).
Definition Buffer : Type := string.

Inductive BindVal : Type :=
  | ValNum (n : Z)
  | ValStr (s : string)
  | ValArr (items : list string)
  | ValLob (l : Lob).

Record BindDesc : Type := mkBind {
  dir : Dir;
  type : DbType;
  val : option BindVal;
  maxSize : option Z;
  maxArraySize : option Z
}.

(** An entry of a bindings object: a bare value ([proc: procedure]) or a
    descriptor. *)
Inductive BindParam : Type :=
  | Plain (v : BindVal)
  | Desc (d : BindDesc).

Definition Bind : Type := obj BindParam.

Definition bind_in_string (v : option BindVal) : BindParam :=
  Desc (mkBind BIND_IN STRING v None None).

(** [{ sql: string; bind: any }] *)
Record para : Type := mkPara { sql : string; bind : Bind }.

(** ** Thrown values *)

(** What a collaborator throws: whether it is an [Error] instance, and
    the texts [toString()] and [stack] give for it. *)
Record Thrown : Type := mkThrown {
  instanceofError : bool;
  thrown_toString : string;
  thrown_stack : string
}.

Definition cgiObjType : Type := obj string.

(** What [invokeProcedure] can reject with. *)
Inductive JsError : Type :=
  | RequestError (message : string)
  | ProcedureError (message : string) (cgiObj : cgiObjType)
      (sql : string) (bind : Bind)
  | Error (message : string)
  | Uncaught (t : Thrown).

Definition isRequestError (e : JsError) : bool :=
  match e with RequestError _ => true | _ => false end.

Definition isProcedureError (e : JsError) : bool :=
  match e with ProcedureError _ _ _ _ => true | _ => false end.

Inductive Result (A : Type) : Type :=
  | Ok (a : A)
  | Throw (e : JsError).
Arguments Ok {A} a.
Arguments Throw {A} e.

(** ** Text constants *)

Definition nl : string := String (ascii_of_nat 10) EmptyString.
Definition tab : string := String (ascii_of_nat 9) EmptyString.
Definition quote : string := String (ascii_of_nat 34) EmptyString.

(** [lines.join(sep)] *)
Fixpoint join_with (sep : string) (lines : list string) : string :=
  match lines with
  | [] => EmptyString
  | [l] => l
  | l :: rest => l +:+ sep +:+ join_with sep rest
  end.

(** The lines of the template literal [query] of step 3. *)
Definition validation_query_lines (validationFunction : string) : list string :=
  [ "DECLARE";
    tab +:+ tab +:+ "a boolean;";
    tab +:+ tab +:+ "ret number;";
    "    BEGIN";
    "        a := " +:+ validationFunction +:+ "(:proc);";
    tab +:+ tab +:+ ":ret := case when a then 1 else 0 end;";
    "    END;" ].

(** The lines of the template literal of [getProcedureSQL]. *)
Definition getProcedureSQL_lines (procedure : string) : list string :=
  [ "";
    "DECLARE";
    tab +:+ "fileType VARCHAR2(32767);";
    tab +:+ "fileSize INTEGER;";
    tab +:+ "fileBlob BLOB;";
    "BEGIN";
    tab +:+ "-- Ensure a stateless environment by resetting package state (dbms_session.reset_package)";
    tab +:+ "dbms_session.modify_package_state(dbms_session.reinitialize);";
    "";
    tab +:+ "-- initialize the cgi";
    tab +:+ "owa.init_cgi_env(:cgicount, :cginames, :cgivalues);";
    "";
    tab +:+ "-- initialize the htp package";
    tab +:+ "htp.init;";
    "";
    tab +:+ "-- set the HTBUF_LEN";
    tab +:+ "htp.HTBUF_LEN := :htbuflen;";
    "";
    tab +:+ "-- execute the procedure";
    tab +:+ "BEGIN";
    tab +:+ tab +:+ procedure;
    tab +:+ "EXCEPTION WHEN OTHERS THEN";
    tab +:+ tab +:+ "raise_application_error(-20000, 'Error executing " +:+ procedure +:+ "'||CHR(10)||SUBSTR(dbms_utility.format_error_stack()||CHR(10)||dbms_utility.format_error_backtrace(), 1, 2000));";
    tab +:+ "END;";
    "";
    tab +:+ "-- Check for file download";
    tab +:+ "IF (wpg_docload.is_file_download()) THEN";
    tab +:+ tab +:+ "wpg_docload.get_download_file(fileType);";
    tab +:+ tab +:+ "IF (filetype = 'B') THEN";
    tab +:+ tab +:+ tab +:+ "wpg_docload.get_download_blob(:fileBlob);";
    tab +:+ tab +:+ tab +:+ "fileSize := dbms_lob.getlength(:fileBlob);";
    tab +:+ tab +:+ tab +:+ "--dbms_lob.copy(dest_lob=>:fileBlob, src_lob=>fileBlob, amount=>fileSize);";
    tab +:+ tab +:+ "END IF;";
    tab +:+ "END IF;";
    tab +:+ ":fileType := fileType;";
    tab +:+ ":fileSize := fileSize;";
    "";
    tab +:+ "-- retrieve the page";
    tab +:+ "owa.get_page(thepage=>:lines, irows=>:irows);";
    "END;";
    "" ].

(** The catalog query of [getArguments], as the array of its lines. *)
Definition getArguments_sql : list string :=
  [ "DECLARE";
    tab +:+ "schemaName" +:+ tab +:+ tab +:+ "VARCHAR2(32767);";
    tab +:+ "part1" +:+ tab +:+ tab +:+ tab +:+ "VARCHAR2(32767);";
    tab +:+ "part2" +:+ tab +:+ tab +:+ tab +:+ "VARCHAR2(32767);";
    tab +:+ "dblink" +:+ tab +:+ tab +:+ tab +:+ "VARCHAR2(32767);";
    tab +:+ "objectType" +:+ tab +:+ tab +:+ "NUMBER;";
    tab +:+ "objectID" +:+ tab +:+ tab +:+ "NUMBER;";
    "BEGIN";
    tab +:+ "dbms_utility.name_resolve(name=>UPPER(:name), context=>1, schema=>schemaName, part1=>part1, part2=>part2, dblink=>dblink, part1_type=>objectType, object_number=>objectID);";
    tab +:+ "IF (part1 IS NOT NULL) THEN";
    tab +:+ tab +:+ "SELECT argument_name, data_type BULK COLLECT INTO :names, :types FROM all_arguments WHERE owner = schemaName AND package_name = part1 AND object_name = part2 AND argument_name IS NOT NULL ORDER BY overload, sequence;";
    tab +:+ "ELSE";
    tab +:+ tab +:+ "SELECT argument_name, data_type BULK COLLECT INTO :names, :types FROM all_arguments WHERE owner = schemaName AND package_name IS NULL AND object_name = part2 AND argument_name IS NOT NULL ORDER BY overload, sequence;";
    tab +:+ "END IF;";
    "END;" ].

(** Get the SQL statement to execute when a new procedure is invoked. *)
Definition getProcedureSQL (procedure : string) : string :=
  join_with nl (getProcedureSQL_lines procedure).

Definition HTBUF_LEN : Z := 63.
Definition MAX_IROWS : Z := 100000.
Definition MAX_PARAMETER_NUMBER : Z := 1000.

(** ** Results of the database calls *)

(** The value [getArguments] receives from [execute]: either it fails the
    shape test of lines 391-397 (not an object, no [outBinds], [names] or
    [types] not an array), or it carries the two arrays. *)
Inductive argumentsResult : Type :=
  | InvalidResults
  | ArgumentsOutBinds (names types : list string).

(** [type validResType = { outBinds?: { ret: number } | undefined }] *)
Record validResType : Type := mkValidRes { valid_outBinds : option Z }.

(** [result.outBinds] of the invocation statement: [lines], [fileBlob],
    [fileType], [fileSize] and [irows]. [irows] is absent from the object
    the soft-deny branch builds, hence optional. *)
Record outBindsType : Type := mkOutBinds {
  out_lines : list string;
  out_fileBlob : option Lob;
  out_fileType : option string;
  out_fileSize : option Z;
  out_irows : option Z
}.

(** ** Configuration: the fields of [oracleExpressMiddleware$options]
    that the module reads *)

Record pathAliasType : Type := mkPathAlias {
  alias : string;
  alias_procedure : string
}.

Record optionsType : Type := mkOptions {
  doctable : option string;
  requestValidation : option string;
  pathAlias : option pathAliasType
}.

(** Truthiness of an optional string: defined and non-empty. *)
Definition truthy (s : option string) : option string :=
  match s with
  | Some EmptyString => None
  | other => other
  end.

(** ** Property assignment on the argument-type object

    [argTypes] starts as [{}], so assigning a string to ["__proto__"]
    goes to the inherited setter and creates no own property; any other
    key becomes an own property. An inherited property read later is
    never a string, so only own properties can compare equal to
    ['PL/SQL TABLE']. The assigned value is [types[i]], which is
    [undefined] ([None]) past the end of [types]. *)
Definition argTypes_set (k : string) (v : option string)
    (argTypes : gmap string (option string)) : gmap string (option string) :=
  if String.eqb k "__proto__" then argTypes else <[k := v]> argTypes.

(** [argTypes[key] === 'PL/SQL TABLE'] *)
Definition isTable (argTypes : gmap string (option string)) (key : string) : bool :=
  match argTypes !! key with
  | Some (Some t) => String.eqb t "PL/SQL TABLE"
  | _ => false
  end.

(** One argument of the variable-argument flattening. *)
Definition varArgs_step (st : list string * list string)
    (kv : string * argValue) : list string * list string :=
  let '(names, values) := st in
  let '(key, value) := kv in
  match value with
  | ArgString s => (names ++ [key], values ++ [s])
  | ArgArray items =>
      fold_left (fun acc item => (acc.1 ++ [key], acc.2 ++ [item]))
        items (names, values)
  end.

(** The value bound for one fixed argument (lines 326-338): an array when
    the HTTP value is an array or the type found under [key] is
    ['PL/SQL TABLE'], the string itself otherwise. *)
Definition fixArgs_val (argTypes : gmap string (option string))
    (key : string) (value : argValue) : option BindVal :=
  if isArray value || isTable argTypes key then
    Some (ValArr match value with
                 | ArgString s => [] ++ [s]
                 | ArgArray items =>
                     fold_left (fun acc element => acc ++ [element]) items []
                 end)
  else
    match value with
    | ArgString s => Some (ValStr s)
    | ArgArray _ => None
    end.

(** One argument of the fixed-argument loop; the state is the statement
    text so far, [index] and the bindings so far. *)
Definition fixArgs_step (argTypes : gmap string (option string))
    (st : string * nat * Bind) (kv : string * argValue) : string * nat * Bind :=
  let '(sql, index, bind) := st in
  let '(key, value) := kv in
  let parameterName := "p_" +:+ key in
  let sql := if (0 <? index)%nat then sql +:+ "," else sql in
  let index := S index in
  let sql := sql +:+ key +:+ "=>:" +:+ parameterName in
  (sql, index,
   obj_set parameterName (bind_in_string (fixArgs_val argTypes key value)) bind).

(** The bindings of the catalog query (lines 373-377). *)
Definition getArguments_bind (procedure : string) : Bind :=
  [ ("name", Desc (mkBind BIND_IN STRING (Some (ValStr procedure)) None None));
    ("names", Desc (mkBind BIND_OUT STRING None (Some 60) (Some MAX_PARAMETER_NUMBER)));
    ("types", Desc (mkBind BIND_OUT STRING None (Some 60) (Some MAX_PARAMETER_NUMBER))) ].

(** The query and bindings of the request validation (lines 60-73). *)
Definition validation_query (validationFunction : string) : string :=
  join_with nl (validation_query_lines validationFunction).

Definition validation_bind (procedure : string) : Bind :=
  [ ("proc", Plain (ValStr procedure));
    ("ret", Desc (mkBind BIND_OUT NUMBER None None None)) ].

(** [outBinds && outBinds.ret ? outBinds.ret === 1 : false] *)
Definition validResult (requestValidRes : validResType) : bool :=
  match valid_outBinds requestValidRes with
  | Some ret => if ret =? 0 then false else ret =? 1
  | None => false
  end.

(** The fixed bindings of the invocation statement (lines 99-109). *)
Definition envelope (cgiObj : cgiObjType) (fileBlob : Lob) : Bind :=
  let cgi_keys := keys cgiObj in
  let cgi_values := values cgiObj in
  [ ("cgicount", Desc (mkBind BIND_IN NUMBER (Some (ValNum (Z.of_nat (List.length cgi_keys)))) None None));
    ("cginames", Desc (mkBind BIND_IN STRING (Some (ValArr cgi_keys)) None None));
    ("cgivalues", Desc (mkBind BIND_IN STRING (Some (ValArr cgi_values)) None None));
    ("htbuflen", Desc (mkBind BIND_IN NUMBER (Some (ValNum HTBUF_LEN)) None None));
    ("fileType", Desc (mkBind BIND_OUT STRING None None None));
    ("fileSize", Desc (mkBind BIND_OUT NUMBER None None None));
    ("fileBlob", Desc (mkBind BIND_INOUT BLOB (Some (ValLob fileBlob)) None None));
    ("lines", Desc (mkBind BIND_OUT STRING None (Some (HTBUF_LEN * 2)) (Some MAX_IROWS)));
    ("irows", Desc (mkBind BIND_INOUT NUMBER (Some (ValNum MAX_IROWS)) None None)) ].

(** The result the soft-deny branch builds (lines 120-127). *)
Definition denied : outBindsType :=
  mkOutBinds ["No access to this."] None None None None.

(** [result.outBinds.irows > MAX_IROWS]; an absent [irows] compares
    false. *)
Definition tooManyRows (outBinds : outBindsType) : bool :=
  match out_irows outBinds with
  | Some n => MAX_IROWS <? n
  | None => false
  end.

(** The text of [result.outBinds.irows] inside the error message: the
    decimal digits, which is how JavaScript prints an integer below
    10^21 (from there on it prints an exponent, which is not
    modelled). *)
Definition irowsText (outBinds : outBindsType) : string :=
  match out_irows outBinds with
  | Some n => pretty n
  | None => "undefined"
  end.

Section Gateway.

(** The descriptor of an uploaded file ([filesUploadType] is an array of
    them) and what [parse] derives from the page text are declared in
    modules this one only imports. *)
Variable File : Type.
Variable Parsed : Type.

(** [String.prototype.toLowerCase] *)
Variable toLowerCase : string -> string.

(** The page components as [invokeProcedure] leaves them: what [parse]
    returned, with [head.server] and the three [file] fields assigned. *)
Record pageType : Type := mkPage {
  parsed : Parsed;
  head_server : option string;
  file_fileType : option string;
  file_fileSize : option Z;
  file_fileBlob : option Buffer
}.

(** Calls of the collaborators, in the order they are made. *)
Inductive Event : Type :=
  | EvUploadFiles (files : list File) (doctable : string)
  | EvExecute (sql : string) (bind : Bind)
  | EvCreateLob (t : DbType)
  | EvParse (text : string)
  | EvStreamToBuffer (l : Lob)
  | EvSend (page : pageType)
  | EvClose (l : Lob).

(** The behaviour of the collaborators during one request. The three
    call sites of [databaseConnection.execute] expect results of
    different shapes and get an oracle each. *)
Record Env : Type := mkEnv {
  upload_failure : list File -> string ->
                   option (string * cgiObjType * string * Bind);
  execute_arguments : string -> Bind -> Thrown + argumentsResult;
  execute_validation : string -> Bind -> Thrown + validResType;
  execute_procedure : string -> Bind -> Thrown + option outBindsType;
  createLob : DbType -> Thrown + Lob;
  parse : string -> Thrown + Parsed;
  streamToBuffer : Lob -> Thrown + Buffer;
  send : pageType -> Thrown + unit;
  close : Lob -> Thrown + unit
}.

(** *** Computations *)

(** A computation that can only fail with what a collaborator threw (the
    body of a [try] block). *)
Definition Raw (A : Type) : Type := list Event * (Thrown + A).

(** A computation of the module: the calls made, and the outcome. *)
Definition M (A : Type) : Type := list Event * Result A.

#[local] Instance M_ret : MRet M := fun A a => ([], Ok a).

#[local] Instance M_bind : MBind M := fun A B f m =>
  match m with
  | (evs, Ok a) => ((evs ++ (f a).1), (f a).2)
  | (evs, Throw e) => (evs, Throw e)
  end.

Definition throw {A} (e : JsError) : M A := ([], Throw e).

Definition call {A} (ev : Event) (r : Thrown + A) : Raw A := ([ev], r).

Definition raw_ret {A} (a : A) : Raw A := ([], inr a).

Definition raw_map {A B} (f : A -> B) (c : Raw A) : Raw B :=
  (c.1, match c.2 with inl t => inl t | inr a => inr (f a) end).

(** A collaborator call outside any [try]: what it throws escapes. *)
Definition await {A} (c : Raw A) : M A :=
  (c.1, match c.2 with inl t => Throw (Uncaught t) | inr a => Ok a end).

(** [try { c } catch (err) { handler err }] *)
Definition try_catch {A} (c : Raw A) (handler : Thrown -> M A) : M A :=
  match c with
  | (evs, inr a) => (evs, Ok a)
  | (evs, inl err) => ((evs ++ (handler err).1), (handler err).2)
  end.

Definition events {A} (m : M A) : list Event := m.1.
Definition outcome {A} (m : M A) : Result A := m.2.

Variable env : Env.

(** *** Plan building *)

(** Get the sql statement and bindings for the procedure to execute for
    a variable number of arguments. *)
Definition getVarArgsPara (procedure : string) (argObj : argObjType) : M para :=
  let '(names, values) := fold_left varArgs_step argObj ([], []) in
  mret (mkPara (substring1 procedure +:+ "(:argnames, :argvalues);")
          [ ("argnames", bind_in_string (Some (ValArr names)));
            ("argvalues", bind_in_string (Some (ValArr values))) ]).

(** The loop of lines 402-405. *)
Fixpoint fill_argTypes (names types : list string)
    (argTypes : gmap string (option string)) : gmap string (option string) :=
  match names with
  | [] => argTypes
  | name :: names' =>
      fill_argTypes names' (tail types)
        (argTypes_set (toLowerCase name) (head types) argTypes)
  end.

(** Retrieve the argument types for a given procedure to be executed. *)
Definition getArguments (procedure : string) : M (gmap string (option string)) :=
  let sql := getArguments_sql in
  let bind := getArguments_bind procedure in
  result ← try_catch
    (call (EvExecute (join_with nl sql) bind)
       (execute_arguments env (join_with nl sql) bind))
    (fun err =>
       let message := "Error when retrieving arguments" +:+ nl +:+
                      join_with nl sql +:+ nl +:+
                      (if instanceofError err then thrown_stack err else "") in
       throw (RequestError message));
  match result with
  | InvalidResults => throw (RequestError "getArguments: invalid results")
  | ArgumentsOutBinds names types => mret (fill_argTypes names types ∅)
  end.

(** Get the sql statement and bindings for the procedure to execute for
    a fixed number of arguments. *)
Definition getFixArgsPara (procedure : string) (argObj : argObjType) : M para :=
  argTypes ← getArguments procedure;
  let '(sql, _, bind) :=
    fold_left (fixArgs_step argTypes) argObj (procedure +:+ "(", 0%nat, []) in
  mret (mkPara (sql +:+ ");") bind).

(** Get the procedure and arguments to execute. *)
Definition getProcedure (procedure : string) (argObj : argObjType)
    (options : optionsType) : M para :=
  let byName :=
    if String.eqb (substring01 procedure) "!"
    then getVarArgsPara procedure argObj
    else getFixArgsPara procedure argObj in
  match pathAlias options with
  | Some pa =>
      if String.eqb (alias pa) procedure then
        mret (mkPara (alias_procedure pa +:+ "(p_path=>:p_path);")
                [ ("p_path", bind_in_string (Some (ValStr procedure))) ])
      else byName
  | None => byName
  end.

(** *** Invocation *)

(** Modelled from the spec: [uploadFiles] of [./fileUpload], which is not
    among the sources. It inserts through [databaseConnection], whose
    calls all hand back promises, so the call returns a promise; the
    design document has an upload silent when it succeeds and failing
    with a ProcedureError. The value returned here is the way that
    promise settles, which is the collaborator's [upload_failure]. *)
Definition uploadFiles (files : list File) (doctableName : string) : M (Result unit) :=
  ([EvUploadFiles files doctableName],
   Ok match upload_failure env files doctableName with
      | Some (message, cgiObj, sql, bind) =>
          Throw (ProcedureError message cgiObj sql bind)
      | None => Ok tt
      end).

(** Report error in procedure. *)
Definition throwError {A} (error : string) (para : para)
    (cgiObj : cgiObjType) : M A :=
  throw (ProcedureError error cgiObj (sql para) (bind para)).

(** Step 1 (lines 40-44): upload the files when a table is configured.
    The call of line 43 is a statement of its own, without [await]: the
    promise is dropped, and with it the way it settles. *)
Definition uploadStep (filesToUpload : list File) (options : optionsType) : M unit :=
  match doctable options with
  | Some doctableName =>
      if (0 <? String.length doctableName)%nat
      then _ ← uploadFiles filesToUpload doctableName; mret tt
      else mret tt
  | None => mret tt
  end.

(** Step 3 (lines 55-83): the value of [validOperation]. *)
Definition validateProcedure (procedure : string) (options : optionsType) : M bool :=
  try_catch
    match truthy (requestValidation options) with
    | Some validationFunction =>
        let query := validation_query validationFunction in
        raw_map validResult
          (call (EvExecute query (validation_bind procedure))
             (execute_validation env query (validation_bind procedure)))
    | None => raw_ret true
    end
    (fun error =>
       throw (Error "Error during the validation of the procedure (RequestValidationFunction)")).

(** Step 4 (lines 111-133): execute the statement, or build the denial. *)
Definition executeStatement (validOperation : bool) (sqlStatement : string)
    (bind0 : Bind) (para : para) (cgiObj : cgiObjType) : M (option outBindsType) :=
  try_catch
    (if validOperation
     then call (EvExecute sqlStatement (assign bind0 (bind para)))
            (execute_procedure env sqlStatement (assign bind0 (bind para)))
     else raw_ret (Some denied))
    (fun err =>
       throwError ("Error when executing procedure" +:+ nl +:+ sqlStatement +:+ nl +:+
                   (if instanceofError err then thrown_toString err else ""))
         para cgiObj).

(** Steps 5 to 8 (lines 139-188): check the result, parse the page, send
    the response and close the large object [fileBlob] of step 4. *)
Definition processResults (para : para) (cgiObj : cgiObjType) (fileBlob : Lob)
    (result : option outBindsType) : M unit :=
  outBinds ← match result with
             | None => throwError "Error when retrieving rows" para cgiObj
             | Some outBinds => mret outBinds
             end;
  _ ← (if tooManyRows outBinds
       then throwError ("Error when retrieving rows. irows=" +:+ quote +:+
                        irowsText outBinds +:+ quote) para cgiObj
       else mret tt);
  let pageContent := join (out_lines outBinds) in
  pageComponents ← await (call (EvParse pageContent) (parse env pageContent));
  let server := obj_get "SERVER_SOFTWARE" cgiObj in
  blob ← match out_fileBlob outBinds with
         | Some lob =>
             buffer ← await (call (EvStreamToBuffer lob) (streamToBuffer env lob));
             mret (Some buffer)
         | None => mret None
         end;
  let page := mkPage pageComponents server (out_fileType outBinds)
                (out_fileSize outBinds) blob in
  _ ← await (call (EvSend page) (send env page));
  _ ← await (call (EvClose fileBlob) (close env fileBlob));
  mret tt.

(** Invoke the Oracle procedure and return the page content.
    [procedure] is [req.params.name]. *)
Definition invokeProcedure (procedure : string) (argObj : argObjType)
    (cgiObj : cgiObjType) (filesToUpload : list File)
    (options : optionsType) : M unit :=
  _ ← uploadStep filesToUpload options;
  para ← getProcedure procedure argObj options;
  validOperation ← validateProcedure procedure options;
  fileBlob ← await (call (EvCreateLob BLOB) (createLob env BLOB));
  let bind0 := envelope cgiObj fileBlob in
  let sqlStatement := getProcedureSQL (sql para) in
  result ← executeStatement validOperation sqlStatement bind0 para cgiObj;
  processResults para cgiObj fileBlob result.

End Gateway.

Arguments mkPage {Parsed}.
Arguments mkEnv {File Parsed}.
Arguments EvUploadFiles {File Parsed}.
Arguments EvExecute {File Parsed}.
Arguments EvCreateLob {File Parsed}.
Arguments EvParse {File Parsed}.
Arguments EvStreamToBuffer {File Parsed}.
Arguments EvSend {File Parsed}.
Arguments EvClose {File Parsed}.
Arguments upload_failure {File Parsed}.
Arguments execute_arguments {File Parsed}.
Arguments execute_validation {File Parsed}.
Arguments execute_procedure {File Parsed}.
Arguments createLob {File Parsed}.
Arguments parse {File Parsed}.
Arguments streamToBuffer {File Parsed}.
Arguments send {File Parsed}.
Arguments close {File Parsed}.
Arguments parsed {Parsed}.
Arguments head_server {Parsed}.
Arguments file_fileType {Parsed}.
Arguments file_fileSize {Parsed}.
Arguments file_fileBlob {Parsed}.
Arguments M_ret {File Parsed}.
Arguments M_bind {File Parsed}.
Arguments throw {File Parsed A}.
Arguments await {File Parsed A}.
Arguments call {File Parsed A}.
Arguments try_catch {File Parsed A}.
Arguments events {File Parsed A}.
Arguments outcome {File Parsed A}.
Arguments getVarArgsPara {File Parsed}.
Arguments getArguments {File Parsed}.
Arguments getFixArgsPara {File Parsed}.
Arguments getProcedure {File Parsed}.
Arguments uploadFiles {File Parsed}.
Arguments throwError {File Parsed A}.
Arguments uploadStep {File Parsed}.
Arguments validateProcedure {File Parsed}.
Arguments executeStatement {File Parsed}.
Arguments processResults {File Parsed}.
Arguments invokeProcedure {File Parsed}.

#[local] Existing Instance M_ret.
#[local] Existing Instance M_bind.

(** ** Definitions used to state the properties *)

(** The (name, value) pairs one argument stands for in variable-argument
    mode: one pair for a string, one pair per element for an array. *)
Definition pairs_of (kv : string * argValue) : list (string * string) :=
  match kv.2 with
  | ArgString s => [(kv.1, s)]
  | ArgArray items => map (pair kv.1) items
  end.

(** All pairs of an argument mapping, in key order then occurrence
    order. *)
Definition flattened (argObj : argObjType) : list (string * string) :=
  flat_map pairs_of argObj.

(** The strings an HTTP value holds, in order. *)
Definition items_of (value : argValue) : list string :=
  match value with
  | ArgString s => [s]
  | ArgArray items => items
  end.

(** ASCII lower-casing, an instance of [toLowerCase] for names without
    characters beyond ASCII. *)
Definition lowerAscii (c : ascii) : ascii :=
  let n := nat_of_ascii c in
  if ((65 <=? n) && (n <=? 90))%nat then ascii_of_nat (n + 32) else c.

Fixpoint asciiLowerCase (s : string) : string :=
  match s with
  | EmptyString => EmptyString
  | String c rest => String (lowerAscii c) (asciiLowerCase rest)
  end.

(** A request environment in which every collaborator succeeds: the
    catalog declares [FOO] as an indexed table and [BAR] as a scalar,
    validation grants, the procedure prints two lines, and the parser
    hands the page text through. *)
Definition quietEnv : Env unit string :=
  mkEnv (fun _ _ => None)
    (fun _ _ => inr (ArgumentsOutBinds ["FOO"; "BAR"] ["PL/SQL TABLE"; "VARCHAR2"]))
    (fun _ _ => inr (mkValidRes (Some 1)))
    (fun _ _ => inr (Some (mkOutBinds ["Hello, "; "world"] None None None (Some 2))))
    (fun _ => inr (LobHandle 0))
    (fun text => inr text)
    (fun _ => inr "bytes")
    (fun _ => inr tt)
    (fun _ => inr tt).

(** Classification of the collaborator calls. *)
Definition isUpload {File Parsed} (ev : Event File Parsed) : bool :=
  match ev with EvUploadFiles _ _ => true | _ => false end.

Definition isExecute {File Parsed} (ev : Event File Parsed) : bool :=
  match ev with EvExecute _ _ => true | _ => false end.

Definition isClose {File Parsed} (ev : Event File Parsed) : bool :=
  match ev with EvClose _ => true | _ => false end.

(** The calls of steps 6 to 8. *)
Definition isResponseCall {File Parsed} (ev : Event File Parsed) : bool :=
  match ev with
  | EvParse _ | EvStreamToBuffer _ | EvSend _ | EvClose _ => true
  | _ => false
  end.

(** The first character of an executed statement. *)
Definition first_char {File Parsed} (ev : Event File Parsed) : option ascii :=
  match ev with EvExecute sql _ => String.get 0 sql | _ => None end.

(** The configuration with the upload table removed. *)
Definition withoutDoctable (options : optionsType) : optionsType :=
  mkOptions None (requestValidation options) (pathAlias options).

(** [quietEnv] with another answer of the invocation statement. *)
Definition answering (answer : Thrown + option outBindsType) : Env unit string :=
  mkEnv (upload_failure quietEnv) (execute_arguments quietEnv)
    (execute_validation quietEnv) (fun _ _ => answer) (createLob quietEnv)
    (parse quietEnv) (streamToBuffer quietEnv) (send quietEnv) (close quietEnv).

(** [quietEnv] with another answer of the validation query. *)
Definition validating (answer : Thrown + validResType) : Env unit string :=
  mkEnv (upload_failure quietEnv) (execute_arguments quietEnv)
    (fun _ _ => answer) (execute_procedure quietEnv) (createLob quietEnv)
    (parse quietEnv) (streamToBuffer quietEnv) (send quietEnv) (close quietEnv).

(** [quietEnv] with uploads that fail. *)
Definition rejectingUploads : Env unit string :=
  mkEnv (fun _ doctableName =>
           Some ("Unable to insert file", [], "INSERT INTO " +:+ doctableName, []))
    (execute_arguments quietEnv) (execute_validation quietEnv)
    (execute_procedure quietEnv) (createLob quietEnv)
    (parse quietEnv) (streamToBuffer quietEnv) (send quietEnv) (close quietEnv).

(** [quietEnv] with other answers of the parser and of [send]. *)
Definition responding (parsed : Thrown + string) (sent : Thrown + unit) : Env unit string :=
  mkEnv (upload_failure quietEnv) (execute_arguments quietEnv)
    (execute_validation quietEnv) (execute_procedure quietEnv) (createLob quietEnv)
    (fun _ => parsed) (streamToBuffer quietEnv) (fun _ => sent) (close quietEnv).

Definition ORA_06550 : Thrown :=
  mkThrown true "Error: ORA-06550: line 1, column 7" "Error: ORA-06550: line 1, column 7".

(** The text one argument adds to the fixed-argument statement. *)
Definition arg_text (kv : string * argValue) : string :=
  kv.1 +:+ "=>:" +:+ "p_" +:+ kv.1.

(** The binding one argument adds to the fixed-argument plan. *)
Definition arg_binding (argTypes : gmap string (option string))
    (kv : string * argValue) : string * BindParam :=
  ("p_" +:+ kv.1, bind_in_string (fixArgs_val argTypes kv.1 kv.2)).

(** Whether [getProcedure] reaches the fixed-argument mode: the name is
    neither the configured alias nor marked with [!]. *)
Definition usesCatalog (options : optionsType) (procedure : string) : bool :=
  negb match pathAlias options with
       | Some pa => String.eqb (alias pa) procedure
       | None => false
       end
  && negb (String.eqb (substring01 procedure) "!").

(** The call that reads the download, when the result carries one. *)
Definition download_calls {File Parsed} (outBinds : outBindsType) : list (Event File Parsed) :=
  match out_fileBlob outBinds with
  | Some lob => [EvStreamToBuffer lob]
  | None => []
  end.

(** [blob] is what [streamToBuffer] read from the download of the
    result, or nothing when the result carries none. *)
Definition download_read {File Parsed} (env : Env File Parsed)
    (outBinds : outBindsType) (blob : option Buffer) : Prop :=
  match out_fileBlob outBinds with
  | Some lob => exists buffer, streamToBuffer env lob = inr buffer /\ blob = Some buffer
  | None => blob = None
  end.

(** The text of the RequestError for a catalog query that raised. *)
Definition catalog_failure_message (err : Thrown) : string :=
  "Error when retrieving arguments" +:+ nl +:+ join_with nl getArguments_sql +:+ nl +:+
  (if instanceofError err then thrown_stack err else "").

(** [quietEnv] with a catalog query that raises. *)
Definition catalogDown : Env unit string :=
  mkEnv (upload_failure quietEnv) (fun _ _ => inl ORA_06550)
    (execute_validation quietEnv) (execute_procedure quietEnv) (createLob quietEnv)
    (parse quietEnv) (streamToBuffer quietEnv) (send quietEnv) (close quietEnv).

(** [quietEnv] with a [close] that throws. *)
Definition closeFails : Env unit string :=
  mkEnv (upload_failure quietEnv) (execute_arguments quietEnv)
    (execute_validation quietEnv) (execute_procedure quietEnv) (createLob quietEnv)
    (parse quietEnv) (streamToBuffer quietEnv) (send quietEnv) (fun _ => inl ORA_06550).

(** [quietEnv] with a procedure that signals a download. *)
Definition downloading : Env unit string :=
  answering (inr (Some (mkOutBinds [] (Some (LobHandle 7)) (Some "B") (Some 5) (Some 0)))).

(** What a ProcedureError raised for a plan carries. *)
Definition diagnoses (cgiObj : cgiObjType) (plan : para) (e : JsError) : Prop :=
  match e with
  | ProcedureError _ c s b => c = cgiObj /\ s = sql plan /\ b = bind plan
  | _ => True
  end.

(** [quietEnv] whose validation denies, as an environment over files
    named by strings. *)
Definition denying : Env string string :=
  mkEnv (fun _ _ => None)
    (fun _ _ => inr (ArgumentsOutBinds ["FOO"; "BAR"] ["PL/SQL TABLE"; "VARCHAR2"]))
    (fun _ _ => inr (mkValidRes (Some 0)))
    (fun _ _ => inr (Some (mkOutBinds ["Hello, "; "world"] None None None (Some 2))))
    (fun _ => inr (LobHandle 0))
    (fun text => inr text)
    (fun _ => inr "bytes")
    (fun _ => inr tt)
    (fun _ => inr tt).

(** ** Objects as association lists *)

Lemma obj_get_set_eq {A} (k : string) (v : A) (o : obj A) :
  obj_get k (obj_set k v o) = Some v.
Proof.
  induction o as [|[k' v'] o IH]; simpl.
  - now rewrite String.eqb_refl.
  - destruct (String.eqb k' k) eqn:E; simpl.
    + now rewrite String.eqb_refl.
    + now rewrite E.
Qed.

Lemma obj_get_set_ne {A} (k k' : string) (v : A) (o : obj A) :
  k <> k' -> obj_get k (obj_set k' v o) = obj_get k o.
Proof.
  intros Hne. induction o as [|[k0 v0] o IH]; simpl.
  - destruct (String.eqb k' k) eqn:E; [|reflexivity].
    apply String.eqb_eq in E. congruence.
  - destruct (String.eqb k0 k') eqn:E; simpl.
    + apply String.eqb_eq in E. subst k0.
      destruct (String.eqb k' k) eqn:E'; [|reflexivity].
      apply String.eqb_eq in E'. congruence.
    + now rewrite IH.
Qed.

Lemma keys_obj_set {A} (k k' : string) (v : A) (o : obj A) :
  k ∈ keys (obj_set k' v o) <-> k = k' \/ k ∈ keys o.
Proof.
  unfold keys. induction o as [|[k0 v0] o IH]; simpl.
  - rewrite list_elem_of_singleton, elem_of_nil. tauto.
  - destruct (String.eqb k0 k') eqn:E; simpl.
    + apply String.eqb_eq in E. subst k0. rewrite !elem_of_cons. tauto.
    + rewrite !elem_of_cons, IH. tauto.
Qed.

(** Merging a source that does not mention [k] leaves [k] as it was. *)
Lemma obj_get_assign_other {A} (k : string) (target source : obj A) :
  k ∉ keys source -> obj_get k (assign target source) = obj_get k target.
Proof.
  unfold assign, keys. revert target.
  induction source as [|[k0 v0] source IH]; intros target Hk; simpl.
  - reflexivity.
  - apply not_elem_of_cons in Hk as [Hne Hk].
    rewrite IH by exact Hk. now apply obj_get_set_ne.
Qed.

Lemma prefix_p_inj (a b : string) : "p_" +:+ a = "p_" +:+ b -> a = b.
Proof. simpl. intros H. now injection H. Qed.

Lemma push_all {A} (items acc : list A) :
  fold_left (fun acc element => acc ++ [element]) items acc = acc ++ items.
Proof.
  revert acc. induction items as [|x items IH]; intros acc; simpl.
  - now rewrite app_nil_r.
  - rewrite IH. now rewrite <- app_assoc.
Qed.

(** ** Running computations *)

Section Computations.

Context {File Parsed : Type}.

Lemma bind_Ok {A B} (m : M File Parsed A) (f : A -> M File Parsed B) evs a :
  m = (evs, Ok a) -> m ≫= f = (evs ++ events (f a), outcome (f a)).
Proof. intros ->. reflexivity. Qed.

Lemma bind_Throw {A B} (m : M File Parsed A) (f : A -> M File Parsed B) evs e :
  m = (evs, Throw e) -> m ≫= f = (evs, Throw e).
Proof. intros ->. reflexivity. Qed.

(** A property of every call made by [m ≫= f] follows from the same
    property of [m] and of every continuation. *)
Lemma Forall_events_bind {A B} (P : Event File Parsed -> Prop)
    (m : M File Parsed A) (f : A -> M File Parsed B) :
  Forall P (events m) -> (forall a, Forall P (events (f a))) ->
  Forall P (events (m ≫= f)).
Proof.
  intros Hm Hf. destruct m as [evs [a|e]]; simpl in *.
  - apply Forall_app. split; [exact Hm|apply Hf].
  - exact Hm.
Qed.

End Computations.

(** ** Plan building *)

Section PlanProperties.

Context {File Parsed : Type}.
Variable toLowerCase : string -> string.
Variable env : Env File Parsed.

(** *** Variable-argument mode *)

Lemma varArgs_items (key : string) (items names values : list string) :
  fold_left (fun acc item => (acc.1 ++ [key], acc.2 ++ [item])) items (names, values)
  = (names ++ map fst (map (pair key) items), values ++ map snd (map (pair key) items)).
Proof.
  revert names values. induction items as [|x items IH]; intros names values; simpl.
  - now rewrite !app_nil_r.
  - rewrite IH. now rewrite <- !app_assoc.
Qed.

Lemma varArgs_fold (argObj : argObjType) (names values : list string) :
  fold_left varArgs_step argObj (names, values)
  = (names ++ map fst (flattened argObj), values ++ map snd (flattened argObj)).
Proof.
  revert names values.
  induction argObj as [|[key value] argObj IH]; intros names values; simpl.
  - now rewrite !app_nil_r.
  - unfold flattened in *. simpl. rewrite !map_app.
    destruct value as [s|items]; unfold pairs_of; simpl.
    + rewrite IH. now rewrite <- !app_assoc.
    + rewrite varArgs_items, IH. now rewrite <- !app_assoc.
Qed.

Lemma getVarArgsPara_eq (procedure : string) (argObj : argObjType) :
  getVarArgsPara (File := File) (Parsed := Parsed) procedure argObj
  = ([], Ok (mkPara (substring1 procedure +:+ "(:argnames, :argvalues);")
               [ ("argnames", bind_in_string (Some (ValArr (map fst (flattened argObj)))));
                 ("argvalues", bind_in_string (Some (ValArr (map snd (flattened argObj))))) ])).
Proof. unfold getVarArgsPara. now rewrite varArgs_fold. Qed.

(** C2. Path-alias resolution comes first: when the procedure name equals
    the configured alias, the plan calls the configured target procedure
    with the single parameter [p_path] bound to the name as received,
    whatever the name looks like (a leading [!] included) and without
    any database call. *)
Theorem path_alias_takes_precedence
    (procedure : string) (argObj : argObjType) (options : optionsType)
    (pa : pathAliasType) :
  pathAlias options = Some pa ->
  alias pa = procedure ->
  getProcedure toLowerCase env procedure argObj options
  = ([], Ok (mkPara (alias_procedure pa +:+ "(p_path=>:p_path);")
               [ ("p_path", bind_in_string (Some (ValStr procedure))) ])).
Proof.
  intros Hpa Halias. unfold getProcedure. rewrite Hpa, Halias.
  now rewrite String.eqb_refl.
Qed.

(** C3. Variable-argument mode: for a name that starts with [!] and is
    not the configured alias, the plan targets the name without its
    first character and binds exactly [argnames] and [argvalues], the
    names and the values of the flattened (name, value) pairs, in key
    order then occurrence order; no database call is made. *)
Theorem variable_argument_mode
    (procedure : string) (argObj : argObjType) (options : optionsType) :
  substring01 procedure = "!" ->
  (forall pa, pathAlias options = Some pa -> alias pa <> procedure) ->
  getProcedure toLowerCase env procedure argObj options
  = ([], Ok (mkPara (substring1 procedure +:+ "(:argnames, :argvalues);")
               [ ("argnames", bind_in_string (Some (ValArr (map fst (flattened argObj)))));
                 ("argvalues", bind_in_string (Some (ValArr (map snd (flattened argObj))))) ]))
  /\ List.length (map fst (flattened argObj)) = List.length (map snd (flattened argObj)).
Proof.
  intros Hbang Halias. split; [|now rewrite !length_map].
  unfold getProcedure. rewrite Hbang. simpl.
  destruct (pathAlias options) as [pa|] eqn:Hpa.
  - destruct (String.eqb (alias pa) procedure) eqn:E.
    + apply String.eqb_eq in E. now destruct (Halias pa eq_refl).
    + apply getVarArgsPara_eq.
  - apply getVarArgsPara_eq.
Qed.

End PlanProperties.

(** The alias [!menu] wins over variable-argument mode. *)
Lemma path_alias_takes_precedence_witness :
  getProcedure asciiLowerCase quietEnv "!menu" [("a", ArgString "1")]
    (mkOptions None None (Some (mkPathAlias "!menu" "portal.show")))
  = ([], Ok (mkPara "portal.show(p_path=>:p_path);"
               [ ("p_path", bind_in_string (Some (ValStr "!menu"))) ])).
Proof.
  exact (path_alias_takes_precedence asciiLowerCase quietEnv "!menu"
           [("a", ArgString "1")]
           (mkOptions None None (Some (mkPathAlias "!menu" "portal.show")))
           (mkPathAlias "!menu" "portal.show") eq_refl eq_refl).
Defined.

(** [{a: "1", b: ["2", "3"]}] yields names [a, b, b] and values
    [1, 2, 3]. *)
Lemma variable_argument_mode_witness :
  getProcedure asciiLowerCase quietEnv "!proc"
    [("a", ArgString "1"); ("b", ArgArray ["2"; "3"])] (mkOptions None None None)
  = ([], Ok (mkPara "proc(:argnames, :argvalues);"
               [ ("argnames", bind_in_string (Some (ValArr ["a"; "b"; "b"])));
                 ("argvalues", bind_in_string (Some (ValArr ["1"; "2"; "3"]))) ])).
Proof.
  refine (proj1 (variable_argument_mode asciiLowerCase quietEnv "!proc"
           [("a", ArgString "1"); ("b", ArgArray ["2"; "3"])]
           (mkOptions None None None) eq_refl _)).
  simpl. discriminate.
Defined.

(** *** Fixed-argument mode *)

Lemma fixArgs_fold_keys argTypes (argObj : argObjType) (st : string * nat * Bind) (k : string) :
  k ∈ keys (fold_left (fixArgs_step argTypes) argObj st).2
  <-> k ∈ keys st.2 \/ exists key, key ∈ keys argObj /\ k = "p_" +:+ key.
Proof.
  revert st. induction argObj as [|[key value] argObj IH]; intros [[s i] b].
  - simpl. split; [tauto|]. intros [H|(key & H & _)]; [exact H|].
    now apply elem_of_nil in H.
  - cbn [fold_left]. rewrite IH. cbn [fixArgs_step snd].
    rewrite keys_obj_set. split.
    + intros [[->|H]|(key' & H & ->)].
      * right. exists key. split; [left|reflexivity].
      * now left.
      * right. exists key'. split; [now right|reflexivity].
    + intros [H|(key' & H & ->)]; [tauto|].
      apply elem_of_cons in H as [->|H]; [tauto|].
      right. exists key'. now split.
Qed.

Lemma fixArgs_fold_other argTypes (argObj : argObjType) (st : string * nat * Bind) (key : string) :
  key ∉ keys argObj ->
  obj_get ("p_" +:+ key) (fold_left (fixArgs_step argTypes) argObj st).2
  = obj_get ("p_" +:+ key) st.2.
Proof.
  revert st. induction argObj as [|[key' value'] argObj IH]; intros [[s i] b] Hk.
  - reflexivity.
  - apply not_elem_of_cons in Hk as [Hne Hk]. cbn [fold_left].
    rewrite IH by exact Hk. cbn [fixArgs_step snd].
    apply obj_get_set_ne. intros Heq. now apply prefix_p_inj in Heq.
Qed.

(** The binding of an argument is the one its own loop iteration made. *)
Lemma fixArgs_fold_get argTypes (argObj : argObjType) (st : string * nat * Bind)
    (key : string) (value : argValue) :
  NoDup (keys argObj) -> (key, value) ∈ argObj ->
  obj_get ("p_" +:+ key) (fold_left (fixArgs_step argTypes) argObj st).2
  = Some (bind_in_string (fixArgs_val argTypes key value)).
Proof.
  revert st. induction argObj as [|[key' value'] argObj IH]; intros [[s i] b] Hnd Hin.
  - now apply elem_of_nil in Hin.
  - apply NoDup_cons in Hnd as [Hfresh Hnd].
    apply elem_of_cons in Hin as [Heq|Hin]; cbn [fold_left].
    + injection Heq as -> ->.
      rewrite fixArgs_fold_other by exact Hfresh.
      cbn [fixArgs_step snd]. apply obj_get_set_eq.
    + now apply IH.
Qed.

(** What the loop binds, by the type found under the argument's own
    name: a string stays a string unless that type is ['PL/SQL TABLE'],
    and an array, or a value for a table-typed name, is bound as the
    array of its strings in order. *)
Lemma fixArgs_val_scalar argTypes (key s : string) :
  isTable argTypes key = false ->
  fixArgs_val argTypes key (ArgString s) = Some (ValStr s).
Proof. unfold fixArgs_val. simpl. now intros ->. Qed.

Lemma fixArgs_val_array argTypes (key : string) (value : argValue) :
  isArray value = true \/ isTable argTypes key = true ->
  fixArgs_val argTypes key value = Some (ValArr (items_of value)).
Proof.
  unfold fixArgs_val. intros H.
  replace (isArray value || isTable argTypes key) with true
    by (symmetry; apply orb_true_iff; exact H).
  destruct value as [s|items]; simpl; [reflexivity|].
  now rewrite push_all.
Qed.

Lemma argTypes_set_lookup (k k' : string) (v : option string)
    (m : gmap string (option string)) (w : option string) :
  argTypes_set k' v m !! k = Some w -> k = k' \/ m !! k = Some w.
Proof.
  unfold argTypes_set. destruct (String.eqb k' "__proto__"); [tauto|].
  destruct (decide (k' = k)) as [->|Hne].
  - tauto.
  - rewrite lookup_insert_ne by exact Hne. tauto.
Qed.

Section FixedArguments.

Context {File Parsed : Type}.
Variable toLowerCase : string -> string.
Variable env : Env File Parsed.

(** The fixed-argument plan once the catalog has answered. *)
Lemma getFixArgsPara_Ok (procedure : string) (argObj : argObjType)
    (names types : list string) :
  execute_arguments env (join_with nl getArguments_sql) (getArguments_bind procedure)
  = inr (ArgumentsOutBinds names types) ->
  exists plan,
    getFixArgsPara toLowerCase env procedure argObj
    = ([EvExecute (join_with nl getArguments_sql) (getArguments_bind procedure)], Ok plan)
    /\ bind plan
       = (fold_left (fixArgs_step (fill_argTypes toLowerCase names types ∅)) argObj
            (procedure +:+ "(", 0%nat, [])).2.
Proof.
  intros Hex. unfold getFixArgsPara, getArguments. cbn zeta. rewrite Hex. simpl.
  destruct (fold_left _ argObj _) as [[s i] b]. simpl.
  eexists. split; reflexivity.
Qed.

(** The binding made for an argument of a duplicate-free mapping. *)
Lemma getFixArgsPara_binding (procedure : string) (argObj : argObjType)
    (names types : list string) (key : string) (value : argValue) :
  execute_arguments env (join_with nl getArguments_sql) (getArguments_bind procedure)
  = inr (ArgumentsOutBinds names types) ->
  NoDup (keys argObj) -> (key, value) ∈ argObj ->
  exists plan,
    outcome (getFixArgsPara toLowerCase env procedure argObj) = Ok plan
    /\ obj_get ("p_" +:+ key) (bind plan)
       = Some (bind_in_string
                 (fixArgs_val (fill_argTypes toLowerCase names types ∅) key value)).
Proof.
  intros Hex Hnd Hin.
  destruct (getFixArgsPara_Ok procedure argObj names types Hex) as (plan & Hplan & Hbind).
  exists plan. split; [now rewrite Hplan|].
  rewrite Hbind. now apply fixArgs_fold_get.
Qed.

(** An array, or a value for a name the map gives as a table, is bound
    as the array of its strings in order; one string becomes an array of
    one. *)
Lemma getFixArgsPara_array (procedure : string) (argObj : argObjType)
    (names types : list string) (key : string) (value : argValue) :
  execute_arguments env (join_with nl getArguments_sql) (getArguments_bind procedure)
  = inr (ArgumentsOutBinds names types) ->
  NoDup (keys argObj) -> (key, value) ∈ argObj ->
  isArray value = true
  \/ isTable (fill_argTypes toLowerCase names types ∅) key = true ->
  exists plan,
    outcome (getFixArgsPara toLowerCase env procedure argObj) = Ok plan
    /\ obj_get ("p_" +:+ key) (bind plan)
       = Some (bind_in_string (Some (ValArr (items_of value)))).
Proof.
  intros Hex Hnd Hin Harr.
  destruct (getFixArgsPara_binding procedure argObj names types key value Hex Hnd Hin)
    as (plan & Hplan & Hbind).
  exists plan. split; [exact Hplan|].
  now rewrite Hbind, fixArgs_val_array.
Qed.

Lemma getFixArgsPara_inv (procedure : string) (argObj : argObjType) (plan : para) :
  outcome (getFixArgsPara toLowerCase env procedure argObj) = Ok plan ->
  exists argTypes,
    bind plan = (fold_left (fixArgs_step argTypes) argObj (procedure +:+ "(", 0%nat, [])).2.
Proof.
  unfold getFixArgsPara, getArguments. cbn zeta.
  destruct (execute_arguments env _ _) as [err|[|names types]]; simpl;
    try discriminate.
  destruct (fold_left _ argObj _) as [[s i] b] eqn:E. simpl.
  intros H. injection H as <-. eexists. rewrite E. reflexivity.
Qed.

(** *** The argument-type map *)

(** Every key of the map is a lower-cased catalog name. *)
Lemma fill_argTypes_keys (names types : list string)
    (m : gmap string (option string)) (k : string) (w : option string) :
  fill_argTypes toLowerCase names types m !! k = Some w ->
  (exists name, name ∈ names /\ k = toLowerCase name) \/ m !! k = Some w.
Proof.
  revert types m. induction names as [|name names IH]; intros types m; simpl.
  - tauto.
  - intros H. apply IH in H as [(name' & Hin & ->)|H].
    + left. exists name'. split; [now right|reflexivity].
    + apply argTypes_set_lookup in H as [->|H]; [|tauto].
      left. exists name. split; [left|reflexivity].
Qed.

Lemma fill_argTypes_untouched (names types : list string)
    (m : gmap string (option string)) (k : string) :
  (forall name, name ∈ names -> toLowerCase name <> k) ->
  fill_argTypes toLowerCase names types m !! k = m !! k.
Proof.
  revert types m. induction names as [|name names IH]; intros types m Hk; simpl.
  - reflexivity.
  - rewrite IH by (intros name' Hin; apply Hk; now right).
    unfold argTypes_set. destruct (String.eqb _ "__proto__"); [reflexivity|].
    apply lookup_insert_ne. apply Hk. left.
Qed.

(** The last catalog row for a name decides its entry. *)
Lemma fill_argTypes_last (names types : list string)
    (m : gmap string (option string)) (i : nat) (name : string) :
  names !! i = Some name ->
  toLowerCase name <> "__proto__" ->
  (forall j name', (i < j)%nat -> names !! j = Some name' ->
                   toLowerCase name' <> toLowerCase name) ->
  fill_argTypes toLowerCase names types m !! toLowerCase name = Some (types !! i).
Proof.
  revert types m i. induction names as [|name0 names IH]; intros types m i Hi Hproto Hlast.
  - discriminate.
  - destruct i as [|i]; simpl in *.
    + injection Hi as ->.
      rewrite fill_argTypes_untouched.
      * unfold argTypes_set.
        destruct (String.eqb (toLowerCase name) "__proto__") eqn:E.
        -- apply String.eqb_eq in E. contradiction.
        -- rewrite lookup_insert_eq. now destruct types.
      * intros name' Hin. apply list_elem_of_lookup in Hin as [j Hj].
        apply (Hlast (S j) name'); [lia|exact Hj].
    + rewrite (IH (tail types) _ i Hi Hproto).
      * now destruct types.
      * intros j name' Hij Hj. apply (Hlast (S j) name'); [lia|exact Hj].
Qed.

(** A name that lower-casing changes is no key of the map. *)
Lemma isTable_mixed_case (names types : list string) (key : string) :
  (forall s, toLowerCase (toLowerCase s) = toLowerCase s) ->
  toLowerCase key <> key ->
  isTable (fill_argTypes toLowerCase names types ∅) key = false.
Proof.
  intros Hidem Hkey. unfold isTable.
  destruct (fill_argTypes toLowerCase names types ∅ !! key) as [w|] eqn:E;
    [|reflexivity].
  apply fill_argTypes_keys in E as [(name & _ & ->)|E].
  - now rewrite Hidem in Hkey.
  - now rewrite lookup_empty in E.
Qed.

End FixedArguments.

Lemma lowerAscii_idem (c : ascii) : lowerAscii (lowerAscii c) = lowerAscii c.
Proof. destruct c as [[] [] [] [] [] [] [] []]; reflexivity. Qed.

Lemma asciiLowerCase_idem (s : string) :
  asciiLowerCase (asciiLowerCase s) = asciiLowerCase s.
Proof.
  induction s as [|c s IH]; simpl; [reflexivity|].
  now rewrite lowerAscii_idem, IH.
Qed.

Section PlanClaims.

Context {File Parsed : Type}.
Variable toLowerCase : string -> string.
Variable env : Env File Parsed.

(** C10. The argument-type map has exactly the lower-cased catalog names
    as keys, the last catalog row for a name deciding its type, while
    the fixed-argument loop reads it under the HTTP name as sent. So a
    single-valued argument whose name lower-casing changes is bound as a
    scalar string whatever the catalog declares. *)
Theorem argument_types_keyed_by_lower_case
    (procedure : string) (names types : list string) :
  (forall s, toLowerCase (toLowerCase s) = toLowerCase s) ->
  execute_arguments env (join_with nl getArguments_sql) (getArguments_bind procedure)
  = inr (ArgumentsOutBinds names types) ->
  exists argTypes,
    outcome (getArguments toLowerCase env procedure) = Ok argTypes
    /\ (forall k w, argTypes !! k = Some w ->
                    exists name, name ∈ names /\ k = toLowerCase name)
    /\ (forall i name,
          names !! i = Some name ->
          toLowerCase name <> "__proto__" ->
          (forall j name', (i < j)%nat -> names !! j = Some name' ->
                           toLowerCase name' <> toLowerCase name) ->
          argTypes !! toLowerCase name = Some (types !! i))
    /\ (forall argObj key s,
          NoDup (keys argObj) -> (key, ArgString s) ∈ argObj ->
          toLowerCase key <> key ->
          exists plan,
            outcome (getFixArgsPara toLowerCase env procedure argObj) = Ok plan
            /\ obj_get ("p_" +:+ key) (bind plan)
               = Some (bind_in_string (Some (ValStr s)))).
Proof.
  intros Hidem Hex. exists (fill_argTypes toLowerCase names types ∅).
  split; [|split; [|split]].
  - unfold getArguments. cbn zeta. now rewrite Hex.
  - intros k w Hk. apply fill_argTypes_keys in Hk as [Hk|Hk]; [exact Hk|].
    now rewrite lookup_empty in Hk.
  - intros i name. apply fill_argTypes_last.
  - intros argObj key s Hnd Hin Hkey.
    destruct (getFixArgsPara_binding toLowerCase env procedure argObj names types
                key (ArgString s) Hex Hnd Hin) as (plan & Hplan & Hbind).
    exists plan. split; [exact Hplan|].
    now rewrite Hbind, fixArgs_val_scalar by now apply isTable_mixed_case.
Qed.

(** The keys a plan can bind, whatever the mode. *)
Lemma getProcedure_keys
    (procedure : string) (argObj : argObjType) (options : optionsType)
    (plan : para) (k : string) :
  outcome (getProcedure toLowerCase env procedure argObj options) = Ok plan ->
  k ∈ keys (bind plan) ->
  k = "argnames" \/ k = "argvalues" \/ exists key, k = "p_" +:+ key.
Proof.
  intros Hplan.
  assert (Hby : forall m : M File Parsed para,
            m = getVarArgsPara procedure argObj \/
            m = getFixArgsPara toLowerCase env procedure argObj ->
            outcome m = Ok plan ->
            k ∈ keys (bind plan) ->
            k = "argnames" \/ k = "argvalues" \/ exists key, k = "p_" +:+ key).
  { intros m [-> | ->] Hm Hk.
    - rewrite getVarArgsPara_eq in Hm. injection Hm as <-.
      simpl in Hk. rewrite !elem_of_cons in Hk.
      destruct Hk as [->|[->|Hk]]; [tauto|tauto|].
      now apply elem_of_nil in Hk.
    - apply getFixArgsPara_inv in Hm as [argTypes Hb].
      rewrite Hb in Hk. apply fixArgs_fold_keys in Hk as [Hk|(key & _ & ->)].
      + now apply elem_of_nil in Hk.
      + right. right. now exists key. }
  unfold getProcedure in Hplan. cbn zeta in Hplan.
  assert (Hname : outcome (if String.eqb (substring01 procedure) "!"
                           then getVarArgsPara procedure argObj
                           else getFixArgsPara toLowerCase env procedure argObj)
                  = Ok plan ->
                  k ∈ keys (bind plan) ->
                  k = "argnames" \/ k = "argvalues" \/ exists key, k = "p_" +:+ key).
  { apply Hby. destruct (String.eqb (substring01 procedure) "!"); tauto. }
  destruct (pathAlias options) as [pa|]; [|exact (Hname Hplan)].
  destruct (String.eqb (alias pa) procedure); [|exact (Hname Hplan)].
  injection Hplan as <-. intros Hk. simpl in Hk.
  apply list_elem_of_singleton in Hk as ->.
  right. right. now exists "path".
Qed.

Lemma plan_key_not_in_envelope
    (procedure : string) (argObj : argObjType) (options : optionsType)
    (plan : para) (cgiObj : cgiObjType) (fileBlob : Lob) (k : string) :
  outcome (getProcedure toLowerCase env procedure argObj options) = Ok plan ->
  k ∈ keys (bind plan) -> k ∉ keys (envelope cgiObj fileBlob).
Proof.
  intros Hplan Hk Henv. simpl in Henv. rewrite !elem_of_cons in Henv.
  destruct (getProcedure_keys _ _ _ _ _ Hplan Hk) as [->|[->|(key & ->)]];
    repeat (destruct Henv as [Henv|Henv]; [discriminate Henv|]);
    now apply elem_of_nil in Henv.
Qed.

(** Merging the plan into the fixed bindings keeps each of them. *)
Lemma envelope_kept
    (procedure : string) (argObj : argObjType) (options : optionsType)
    (plan : para) (cgiObj : cgiObjType) (fileBlob : Lob) (k : string) :
  outcome (getProcedure toLowerCase env procedure argObj options) = Ok plan ->
  k ∈ keys (envelope cgiObj fileBlob) ->
  obj_get k (assign (envelope cgiObj fileBlob) (bind plan))
  = obj_get k (envelope cgiObj fileBlob).
Proof.
  intros Hplan Hk. apply obj_get_assign_other. intros Hin.
  exact (plan_key_not_in_envelope _ _ _ _ _ _ _ Hplan Hin Hk).
Qed.

(** C8. The bindings of a plan, in each of the three modes, share no key
    with the nine fixed bindings of the invocation statement, so merging
    them leaves every fixed binding as it was; and the fixed-argument
    mode binds exactly the names [p_] followed by an argument name. *)
Theorem plan_keys_avoid_envelope
    (procedure : string) (argObj : argObjType) (options : optionsType)
    (plan : para) (cgiObj : cgiObjType) (fileBlob : Lob) :
  outcome (getProcedure toLowerCase env procedure argObj options) = Ok plan ->
  keys (envelope cgiObj fileBlob)
  = ["cgicount"; "cginames"; "cgivalues"; "htbuflen"; "fileType"; "fileSize";
     "fileBlob"; "lines"; "irows"]
  /\ (forall k, k ∈ keys (bind plan) -> k ∉ keys (envelope cgiObj fileBlob))
  /\ (forall k, k ∈ keys (envelope cgiObj fileBlob) ->
                obj_get k (assign (envelope cgiObj fileBlob) (bind plan))
                = obj_get k (envelope cgiObj fileBlob))
  /\ (forall fixed,
        outcome (getFixArgsPara toLowerCase env procedure argObj) = Ok fixed ->
        forall k, k ∈ keys (bind fixed)
                  <-> exists key, key ∈ keys argObj /\ k = "p_" +:+ key).
Proof.
  intros Hplan. split; [reflexivity|]. split; [|split].
  - intros k. now apply plan_key_not_in_envelope with procedure argObj options.
  - intros k. now apply envelope_kept with procedure argObj options.
  - intros fixed Hfixed k. apply getFixArgsPara_inv in Hfixed as [argTypes Hb].
    rewrite Hb, fixArgs_fold_keys. simpl. split.
    + intros [H|H]; [now apply elem_of_nil in H|exact H].
    + tauto.
Qed.

End PlanClaims.

(** C1. The catalog declares [FOO] as ['PL/SQL TABLE'], and [Foo] is that
    parameter once names are compared as the map keys are built, yet the
    single-valued argument [Foo] is bound as the scalar string ["1"],
    where an array holding ["1"] is due; the same value sent as [foo] is
    bound as that array. *)
Theorem table_promotion_missed_for_mixed_case :
  isTable (fill_argTypes asciiLowerCase ["FOO"; "BAR"] ["PL/SQL TABLE"; "VARCHAR2"] ∅)
    (asciiLowerCase "Foo") = true
  /\ getFixArgsPara asciiLowerCase quietEnv "p" [("Foo", ArgString "1")]
     = ([EvExecute (join_with nl getArguments_sql) (getArguments_bind "p")],
        Ok (mkPara "p(Foo=>:p_Foo);" [ ("p_Foo", bind_in_string (Some (ValStr "1"))) ]))
  /\ getFixArgsPara asciiLowerCase quietEnv "p" [("foo", ArgString "1")]
     = ([EvExecute (join_with nl getArguments_sql) (getArguments_bind "p")],
        Ok (mkPara "p(foo=>:p_foo);" [ ("p_foo", bind_in_string (Some (ValArr ["1"]))) ])).
Proof. repeat split; vm_compute; reflexivity. Qed.

Lemma argument_types_keyed_by_lower_case_witness :
  exists plan,
    outcome (getFixArgsPara asciiLowerCase quietEnv "p"
               [("Foo", ArgString "1"); ("bar", ArgArray ["2"; "3"])]) = Ok plan
    /\ obj_get "p_Foo" (bind plan) = Some (bind_in_string (Some (ValStr "1"))).
Proof.
  destruct (argument_types_keyed_by_lower_case asciiLowerCase quietEnv "p"
              ["FOO"; "BAR"] ["PL/SQL TABLE"; "VARCHAR2"]
              asciiLowerCase_idem eq_refl) as (argTypes & _ & _ & _ & Hscalar).
  apply (Hscalar [("Foo", ArgString "1"); ("bar", ArgArray ["2"; "3"])] "Foo" "1").
  - simpl. repeat constructor; rewrite ?elem_of_cons, ?elem_of_nil; intuition discriminate.
  - left.
  - discriminate.
Defined.

Lemma plan_keys_avoid_envelope_witness :
  ("p_foo" ∉ keys (envelope [("SERVER_SOFTWARE", "gateway")] (LobHandle 0)))
  /\ obj_get "irows"
       (assign (envelope [("SERVER_SOFTWARE", "gateway")] (LobHandle 0))
          [ ("p_foo", bind_in_string (Some (ValArr ["1"])));
            ("p_bar", bind_in_string (Some (ValArr ["2"; "3"]))) ])
     = Some (Desc (mkBind BIND_INOUT NUMBER (Some (ValNum 100000)) None None)).
Proof.
  destruct (plan_keys_avoid_envelope asciiLowerCase quietEnv "p"
              [("foo", ArgString "1"); ("bar", ArgArray ["2"; "3"])]
              (mkOptions None None None)
              (mkPara "p(foo=>:p_foo,bar=>:p_bar);"
                 [ ("p_foo", bind_in_string (Some (ValArr ["1"])));
                   ("p_bar", bind_in_string (Some (ValArr ["2"; "3"]))) ])
              [("SERVER_SOFTWARE", "gateway")] (LobHandle 0))
    as (_ & Hdisjoint & Hkept & _).
  - vm_compute. reflexivity.
  - split.
    + apply Hdisjoint. left.
    + rewrite Hkept; [reflexivity|]. simpl. rewrite !elem_of_cons. tauto.
Defined.

(** ** Invocation *)

Section InvocationProperties.

Context {File Parsed : Type}.
Variable toLowerCase : string -> string.
Variable env : Env File Parsed.

(** The steps after the upload, which do not look at the files. *)
Lemma invokeProcedure_unfold
    (procedure : string) (argObj : argObjType) (cgiObj : cgiObjType)
    (files : list File) (options : optionsType) :
  invokeProcedure toLowerCase env procedure argObj cgiObj files options
  = uploadStep env files options ≫= fun _ =>
    getProcedure toLowerCase env procedure argObj options ≫= fun para =>
    validateProcedure env procedure options ≫= fun validOperation =>
    await (call (EvCreateLob BLOB) (createLob env BLOB)) ≫= fun fileBlob =>
    executeStatement env validOperation (getProcedureSQL (sql para))
      (envelope cgiObj fileBlob) para cgiObj ≫=
    processResults env para cgiObj fileBlob.
Proof. reflexivity. Qed.

(** The run once the plan is built, the validation has answered and the
    large object exists. *)
Lemma invokeProcedure_run
    (procedure : string) (argObj : argObjType) (cgiObj : cgiObjType)
    (files : list File) (options : optionsType)
    (evs1 evs2 evs3 : list (Event File Parsed)) (plan : para)
    (validOperation : bool) (lob : Lob) :
  uploadStep env files options = (evs1, Ok tt) ->
  getProcedure toLowerCase env procedure argObj options = (evs2, Ok plan) ->
  validateProcedure env procedure options = (evs3, Ok validOperation) ->
  createLob env BLOB = inr lob ->
  invokeProcedure toLowerCase env procedure argObj cgiObj files options
  = (evs1 ++ evs2 ++ evs3 ++ EvCreateLob BLOB ::
       events (executeStatement env validOperation (getProcedureSQL (sql plan))
                 (envelope cgiObj lob) plan cgiObj ≫=
               processResults env plan cgiObj lob),
     outcome (executeStatement env validOperation (getProcedureSQL (sql plan))
                (envelope cgiObj lob) plan cgiObj ≫=
              processResults env plan cgiObj lob)).
Proof.
  intros Hup Hplan Hvalid Hlob. rewrite invokeProcedure_unfold.
  rewrite (bind_Ok _ _ _ _ Hup). cbn beta.
  rewrite (bind_Ok _ _ _ _ Hplan). cbn beta.
  rewrite (bind_Ok _ _ _ _ Hvalid). cbn beta.
  unfold await at 1 2, call at 1 2. rewrite Hlob. cbn.
  reflexivity.
Qed.

(** The answer of the validation query decides [validOperation]. *)
Lemma validateProcedure_answer
    (procedure : string) (options : optionsType) (validationFunction : string)
    (requestValidRes : validResType) :
  requestValidation options = Some validationFunction ->
  validationFunction <> "" ->
  execute_validation env (validation_query validationFunction)
    (validation_bind procedure) = inr requestValidRes ->
  validateProcedure env procedure options
  = ([EvExecute (validation_query validationFunction) (validation_bind procedure)],
     Ok (validResult requestValidRes)).
Proof.
  intros Hvf Hne Hex. unfold validateProcedure. rewrite Hvf.
  destruct validationFunction as [|c rest]; [contradiction|].
  cbn [truthy]. cbn zeta. unfold raw_map, call. cbn [fst snd].
  now rewrite Hex.
Qed.

Lemma validateProcedure_thrown
    (procedure : string) (options : optionsType) (validationFunction : string)
    (err : Thrown) :
  requestValidation options = Some validationFunction ->
  validationFunction <> "" ->
  execute_validation env (validation_query validationFunction)
    (validation_bind procedure) = inl err ->
  validateProcedure env procedure options
  = ([EvExecute (validation_query validationFunction) (validation_bind procedure)],
     Throw (Error "Error during the validation of the procedure (RequestValidationFunction)")).
Proof.
  intros Hvf Hne Hex. unfold validateProcedure. rewrite Hvf.
  destruct validationFunction as [|c rest]; [contradiction|].
  cbn [truthy]. cbn zeta. unfold raw_map, call. cbn [fst snd].
  now rewrite Hex.
Qed.

(** *** Which calls each step can make *)

Lemma uploadStep_events (files : list File) (options : optionsType) :
  Forall (fun ev => isUpload ev = true) (events (uploadStep env files options)).
Proof.
  unfold uploadStep. destruct (doctable options) as [doctableName|];
    [destruct (0 <? String.length doctableName)%nat|]; cbn; repeat constructor.
Qed.

Lemma getProcedure_events
    (procedure : string) (argObj : argObjType) (options : optionsType) :
  Forall (fun ev => ev = EvExecute (join_with nl getArguments_sql)
                          (getArguments_bind procedure))
    (events (getProcedure toLowerCase env procedure argObj options)).
Proof.
  assert (Hfix : Forall (fun ev => ev = EvExecute (join_with nl getArguments_sql)
                                       (getArguments_bind procedure))
                   (events (getFixArgsPara toLowerCase env procedure argObj))).
  { unfold getFixArgsPara, getArguments. cbn zeta.
    destruct (execute_arguments env _ _) as [err|[|names types]]; simpl;
      try (repeat constructor).
    destruct (fold_left _ argObj _) as [[s i] b]. repeat constructor. }
  unfold getProcedure. cbn zeta.
  destruct (pathAlias options) as [pa|];
    [destruct (String.eqb (alias pa) procedure); [constructor|]|];
    (destruct (String.eqb (substring01 procedure) "!");
     [rewrite getVarArgsPara_eq; constructor|exact Hfix]).
Qed.

Lemma validateProcedure_events (procedure : string) (options : optionsType) :
  Forall (fun ev => isExecute ev = true)
    (events (validateProcedure env procedure options)).
Proof.
  unfold validateProcedure.
  destruct (truthy (requestValidation options)) as [validationFunction|];
    [|constructor].
  cbn zeta. unfold raw_map, call. cbn [fst snd].
  destruct (execute_validation env _ _); repeat constructor.
Qed.

Lemma processResults_events
    (plan : para) (cgiObj : cgiObjType) (lob : Lob) (result : option outBindsType) :
  Forall (fun ev => isResponseCall ev = true)
    (events (processResults env plan cgiObj lob result)).
Proof.
  unfold processResults. destruct result as [outBinds|]; [|constructor].
  cbn. destruct (tooManyRows outBinds); [constructor|].
  cbn. destruct (parse env _) as [err|pageComponents]; [repeat constructor|].
  cbn. destruct (out_fileBlob outBinds) as [l|];
    [cbn; destruct (streamToBuffer env l); [repeat constructor|]|];
    cbn; (destruct (send env _); [repeat constructor|]);
    cbn; destruct (close env lob); repeat constructor.
Qed.

(** The statement of [getProcedureSQL] opens with a line feed, the two
    other statements of the module with the letter D. *)
Lemma getProcedureSQL_head (procedure : string) :
  String.get 0 (getProcedureSQL procedure) = Some (ascii_of_nat 10).
Proof. reflexivity. Qed.

Lemma getArguments_sql_head :
  String.get 0 (join_with nl getArguments_sql) = Some "D"%char.
Proof. reflexivity. Qed.

Lemma validation_query_head (validationFunction : string) :
  String.get 0 (validation_query validationFunction) = Some "D"%char.
Proof. reflexivity. Qed.

End InvocationProperties.

Section InvocationClaims.

Context {File Parsed : Type}.
Variable toLowerCase : string -> string.
Variable env : Env File Parsed.

Lemma executeStatement_events
    (validOperation : bool) (sqlStatement : string) (bind0 : Bind)
    (plan : para) (cgiObj : cgiObjType) :
  Forall (fun ev => isExecute ev = true)
    (events (executeStatement env validOperation sqlStatement bind0 plan cgiObj)).
Proof.
  unfold executeStatement. destruct validOperation; [|constructor].
  unfold call. destruct (execute_procedure env _ _); repeat constructor.
Qed.

(** Without a validation that grants, step 4 makes no call and hands the
    denial on. *)
Lemma executeStatement_denied
    (sqlStatement : string) (bind0 : Bind) (plan : para) (cgiObj : cgiObjType) :
  executeStatement env false sqlStatement bind0 plan cgiObj = ([], Ok (Some denied)).
Proof. reflexivity. Qed.

Lemma executeStatement_answer
    (sqlStatement : string) (bind0 : Bind) (plan : para) (cgiObj : cgiObjType)
    (result : option outBindsType) :
  execute_procedure env sqlStatement (assign bind0 (bind plan)) = inr result ->
  executeStatement env true sqlStatement bind0 plan cgiObj
  = ([EvExecute sqlStatement (assign bind0 (bind plan))], Ok result).
Proof. intros Hexec. unfold executeStatement, call, try_catch. now rewrite Hexec. Qed.

Lemma executeStatement_thrown
    (sqlStatement : string) (bind0 : Bind) (plan : para) (cgiObj : cgiObjType)
    (err : Thrown) :
  execute_procedure env sqlStatement (assign bind0 (bind plan)) = inl err ->
  executeStatement env true sqlStatement bind0 plan cgiObj
  = ([EvExecute sqlStatement (assign bind0 (bind plan))],
     Throw (ProcedureError
              ("Error when executing procedure" +:+ nl +:+ sqlStatement +:+ nl +:+
               (if instanceofError err then thrown_toString err else ""))
              cgiObj (sql plan) (bind plan))).
Proof.
  intros Hexec. unfold executeStatement, call, try_catch. rewrite Hexec.
  reflexivity.
Qed.

(** Step 5 on a result that reports too many rows. *)
Lemma processResults_overflow
    (plan : para) (cgiObj : cgiObjType) (lob : Lob) (outBinds : outBindsType) :
  tooManyRows outBinds = true ->
  processResults env plan cgiObj lob (Some outBinds)
  = ([], Throw (ProcedureError
                  ("Error when retrieving rows. irows=" +:+ quote +:+
                   irowsText outBinds +:+ quote)
                  cgiObj (sql plan) (bind plan))).
Proof. intros Hrows. unfold processResults. cbn. now rewrite Hrows. Qed.

(** Otherwise the next call is the parser, on the joined lines. *)
Lemma processResults_parse
    (plan : para) (cgiObj : cgiObjType) (lob : Lob) (outBinds : outBindsType) :
  tooManyRows outBinds = false ->
  exists rest,
    events (processResults env plan cgiObj lob (Some outBinds))
    = EvParse (join (out_lines outBinds)) :: rest.
Proof.
  intros Hrows. unfold processResults. cbn. rewrite Hrows. cbn.
  destruct (parse env (join (out_lines outBinds))) as [err|pageComponents].
  - exists []. reflexivity.
  - cbn. eexists. reflexivity.
Qed.

(** The whole of steps 5 to 8 when no collaborator throws. *)
Lemma processResults_Ok
    (plan : para) (cgiObj : cgiObjType) (lob : Lob) (outBinds : outBindsType)
    (pageComponents : Parsed) :
  tooManyRows outBinds = false ->
  out_fileBlob outBinds = None ->
  parse env (join (out_lines outBinds)) = inr pageComponents ->
  send env (mkPage pageComponents (obj_get "SERVER_SOFTWARE" cgiObj)
              (out_fileType outBinds) (out_fileSize outBinds) None) = inr tt ->
  close env lob = inr tt ->
  processResults env plan cgiObj lob (Some outBinds)
  = ([ EvParse (join (out_lines outBinds));
       EvSend (mkPage pageComponents (obj_get "SERVER_SOFTWARE" cgiObj)
                 (out_fileType outBinds) (out_fileSize outBinds) None);
       EvClose lob ], Ok tt).
Proof.
  intros Hrows Hblob Hparse Hsend Hclose. unfold processResults. cbn.
  rewrite Hrows. cbn. rewrite Hparse. cbn. rewrite Hblob. cbn.
  rewrite Hsend. cbn. now rewrite Hclose.
Qed.

(** The steps that follow the upload never upload. *)
Lemma after_upload_events
    (procedure : string) (argObj : argObjType) (cgiObj : cgiObjType)
    (options : optionsType) :
  Forall (fun ev => isUpload ev = false)
    (events
       (getProcedure toLowerCase env procedure argObj options ≫= fun para =>
        validateProcedure env procedure options ≫= fun validOperation =>
        await (call (EvCreateLob BLOB) (createLob env BLOB)) ≫= fun fileBlob =>
        executeStatement env validOperation (getProcedureSQL (sql para))
          (envelope cgiObj fileBlob) para cgiObj ≫=
        processResults env para cgiObj fileBlob)).
Proof.
  apply Forall_events_bind.
  { eapply Forall_impl; [apply getProcedure_events|]. now intros ev ->. }
  intros plan. apply Forall_events_bind.
  { eapply Forall_impl; [apply validateProcedure_events|]. now intros []. }
  intros validOperation. apply Forall_events_bind.
  { repeat constructor. }
  intros lob. apply Forall_events_bind.
  { eapply Forall_impl; [apply executeStatement_events|]. now intros []. }
  intros result.
  eapply Forall_impl; [apply processResults_events|]. now intros [].
Qed.

(** C4. The ceiling bound into the statement is 100000, for [irows] and
    for the size of [lines]. When the statement reports exactly 100000
    rows the page text goes on to the parser; when it reports more, the
    request ends there with a ProcedureError. *)
Theorem row_count_ceiling
    (procedure : string) (argObj : argObjType) (cgiObj : cgiObjType)
    (files : list File) (options : optionsType)
    (evs1 evs2 evs3 : list (Event File Parsed)) (plan : para) (lob : Lob)
    (outBinds : outBindsType) :
  uploadStep env files options = (evs1, Ok tt) ->
  getProcedure toLowerCase env procedure argObj options = (evs2, Ok plan) ->
  validateProcedure env procedure options = (evs3, Ok true) ->
  createLob env BLOB = inr lob ->
  execute_procedure env (getProcedureSQL (sql plan))
    (assign (envelope cgiObj lob) (bind plan)) = inr (Some outBinds) ->
  obj_get "irows" (assign (envelope cgiObj lob) (bind plan))
  = Some (Desc (mkBind BIND_INOUT NUMBER (Some (ValNum 100000)) None None))
  /\ obj_get "lines" (assign (envelope cgiObj lob) (bind plan))
     = Some (Desc (mkBind BIND_OUT STRING None (Some 126) (Some 100000)))
  /\ (out_irows outBinds = Some 100000 ->
      exists rest,
        events (invokeProcedure toLowerCase env procedure argObj cgiObj files options)
        = evs1 ++ evs2 ++ evs3 ++
          [ EvCreateLob BLOB;
            EvExecute (getProcedureSQL (sql plan))
              (assign (envelope cgiObj lob) (bind plan));
            EvParse (join (out_lines outBinds)) ] ++ rest)
  /\ (forall n, out_irows outBinds = Some n -> 100000 < n ->
        invokeProcedure toLowerCase env procedure argObj cgiObj files options
        = (evs1 ++ evs2 ++ evs3 ++
           [ EvCreateLob BLOB;
             EvExecute (getProcedureSQL (sql plan))
               (assign (envelope cgiObj lob) (bind plan)) ],
           Throw (ProcedureError
                    ("Error when retrieving rows. irows=" +:+ quote +:+ pretty n +:+ quote)
                    cgiObj (sql plan) (bind plan)))).
Proof.
  intros Hup Hplan Hvalid Hlob Hexec.
  assert (Hout : outcome (getProcedure toLowerCase env procedure argObj options) = Ok plan)
    by now rewrite Hplan.
  split; [|split; [|split]].
  - rewrite (envelope_kept _ _ _ _ _ _ _ _ _ Hout); [reflexivity|].
    simpl. rewrite !elem_of_cons. tauto.
  - rewrite (envelope_kept _ _ _ _ _ _ _ _ _ Hout); [reflexivity|].
    simpl. rewrite !elem_of_cons. tauto.
  - intros Hrows.
    rewrite (invokeProcedure_run _ _ _ _ _ _ _ _ _ _ _ _ _ Hup Hplan Hvalid Hlob).
    rewrite (executeStatement_answer _ _ _ _ _ Hexec).
    rewrite (bind_Ok _ _ _ _ eq_refl).
    destruct (processResults_parse plan cgiObj lob outBinds) as [rest Hrest].
    { unfold tooManyRows. now rewrite Hrows. }
    exists rest. unfold events at 1. cbn [fst]. now rewrite Hrest.
  - intros n Hrows Hn.
    rewrite (invokeProcedure_run _ _ _ _ _ _ _ _ _ _ _ _ _ Hup Hplan Hvalid Hlob).
    rewrite (executeStatement_answer _ _ _ _ _ Hexec).
    rewrite (bind_Ok _ _ _ _ eq_refl).
    rewrite processResults_overflow.
    + unfold irowsText. rewrite Hrows. cbn [events outcome fst snd].
      now rewrite app_nil_r.
    + unfold tooManyRows. rewrite Hrows. apply Z.ltb_lt. exact Hn.
Qed.

(** The run ends with the failure of the invocation statement: nothing
    is called after it. *)
Lemma execution_failure_ends_request
    (procedure : string) (argObj : argObjType) (cgiObj : cgiObjType)
    (files : list File) (options : optionsType)
    (evs1 evs2 evs3 : list (Event File Parsed)) (plan : para) (lob : Lob)
    (err : Thrown) :
  uploadStep env files options = (evs1, Ok tt) ->
  getProcedure toLowerCase env procedure argObj options = (evs2, Ok plan) ->
  validateProcedure env procedure options = (evs3, Ok true) ->
  createLob env BLOB = inr lob ->
  execute_procedure env (getProcedureSQL (sql plan))
    (assign (envelope cgiObj lob) (bind plan)) = inl err ->
  invokeProcedure toLowerCase env procedure argObj cgiObj files options
  = (evs1 ++ evs2 ++ evs3 ++
     [ EvCreateLob BLOB;
       EvExecute (getProcedureSQL (sql plan))
         (assign (envelope cgiObj lob) (bind plan)) ],
     Throw (ProcedureError
              ("Error when executing procedure" +:+ nl +:+
               getProcedureSQL (sql plan) +:+ nl +:+
               (if instanceofError err then thrown_toString err else ""))
              cgiObj (sql plan) (bind plan))).
Proof.
  intros Hup Hplan Hvalid Hlob Hexec.
  rewrite (invokeProcedure_run _ _ _ _ _ _ _ _ _ _ _ _ _ Hup Hplan Hvalid Hlob).
  now rewrite (bind_Throw _ _ _ _ (executeStatement_thrown _ _ _ _ _ Hexec)).
Qed.

(** After a validation that does not grant, no statement is executed. *)
Lemma denied_tail_events (plan : para) (cgiObj : cgiObjType) :
  Forall (fun ev => isExecute ev = false)
    (events
       (await (call (EvCreateLob BLOB) (createLob env BLOB)) ≫= fun fileBlob =>
        executeStatement env false (getProcedureSQL (sql plan))
          (envelope cgiObj fileBlob) plan cgiObj ≫=
        processResults env plan cgiObj fileBlob)).
Proof.
  apply Forall_events_bind; [repeat constructor|]. intros lob.
  rewrite executeStatement_denied. apply Forall_events_bind; [constructor|].
  intros result. eapply Forall_impl; [apply processResults_events|]. now intros [].
Qed.

(** C5. When the validation function answers false, the invocation
    statement of the target procedure is never executed; and, the parser
    and the response collaborators not failing, the request resolves
    after sending the page parsed from the fixed text, with no file
    type, size or payload. *)
Theorem denied_request_is_not_invoked
    (procedure : string) (argObj : argObjType) (cgiObj : cgiObjType)
    (files : list File) (options : optionsType)
    (evs1 evs2 : list (Event File Parsed)) (plan : para)
    (validationFunction : string) (requestValidRes : validResType) :
  uploadStep env files options = (evs1, Ok tt) ->
  getProcedure toLowerCase env procedure argObj options = (evs2, Ok plan) ->
  requestValidation options = Some validationFunction ->
  validationFunction <> "" ->
  execute_validation env (validation_query validationFunction)
    (validation_bind procedure) = inr requestValidRes ->
  validResult requestValidRes = false ->
  (forall b,
     EvExecute (getProcedureSQL (sql plan)) b
     ∉ events (invokeProcedure toLowerCase env procedure argObj cgiObj files options))
  /\ (forall lob pageComponents,
        createLob env BLOB = inr lob ->
        parse env "No access to this." = inr pageComponents ->
        send env (mkPage pageComponents (obj_get "SERVER_SOFTWARE" cgiObj)
                    None None None) = inr tt ->
        close env lob = inr tt ->
        invokeProcedure toLowerCase env procedure argObj cgiObj files options
        = (evs1 ++ evs2 ++
           [ EvExecute (validation_query validationFunction) (validation_bind procedure);
             EvCreateLob BLOB;
             EvParse "No access to this.";
             EvSend (mkPage pageComponents (obj_get "SERVER_SOFTWARE" cgiObj)
                       None None None);
             EvClose lob ],
           Ok tt)).
Proof.
  intros Hup Hplan Hvf Hne Hex Hfalse.
  pose proof (validateProcedure_answer env procedure options validationFunction
                requestValidRes Hvf Hne Hex) as Hvalid.
  rewrite Hfalse in Hvalid. split.
  - intros b Hin. rewrite invokeProcedure_unfold in Hin.
    rewrite (bind_Ok _ _ _ _ Hup) in Hin. cbn beta in Hin.
    rewrite (bind_Ok _ _ _ _ Hplan) in Hin. cbn beta in Hin.
    rewrite (bind_Ok _ _ _ _ Hvalid) in Hin. cbn beta in Hin.
    unfold events at 1 2 3 in Hin. cbn [fst] in Hin.
    rewrite !elem_of_app in Hin. destruct Hin as [Hin|[Hin|[Hin|Hin]]].
    + pose proof (uploadStep_events env files options) as Hall.
      rewrite Hup in Hall. rewrite Forall_forall in Hall.
      now specialize (Hall _ Hin).
    + pose proof (getProcedure_events toLowerCase env procedure argObj options) as Hall.
      rewrite Hplan in Hall. rewrite Forall_forall in Hall.
      specialize (Hall _ Hin).
      apply (f_equal first_char) in Hall. unfold first_char in Hall.
      rewrite getProcedureSQL_head, getArguments_sql_head in Hall.
      discriminate Hall.
    + apply list_elem_of_singleton in Hin.
      apply (f_equal first_char) in Hin. unfold first_char in Hin.
      rewrite getProcedureSQL_head, validation_query_head in Hin.
      discriminate Hin.
    + pose proof (denied_tail_events plan cgiObj) as Hall.
      rewrite Forall_forall in Hall. now specialize (Hall _ Hin).
  - intros lob pageComponents Hlob Hparse Hsend Hclose.
    rewrite (invokeProcedure_run _ _ _ _ _ _ _ _ _ _ _ _ _ Hup Hplan Hvalid Hlob).
    rewrite executeStatement_denied. rewrite (bind_Ok _ _ _ _ eq_refl).
    rewrite (processResults_Ok plan cgiObj lob denied pageComponents
               eq_refl eq_refl Hparse Hsend Hclose).
    reflexivity.
Qed.

(** C6, as the code has it. When the validation query raises, the
    request is rejected with a plain [Error] carrying the fixed message,
    which is neither a RequestError nor a ProcedureError; no large
    object has been created and nothing else has been executed. *)
Theorem validation_failure_is_plain_Error
    (procedure : string) (argObj : argObjType) (cgiObj : cgiObjType)
    (files : list File) (options : optionsType)
    (evs1 evs2 : list (Event File Parsed)) (plan : para)
    (validationFunction : string) (err : Thrown) :
  uploadStep env files options = (evs1, Ok tt) ->
  getProcedure toLowerCase env procedure argObj options = (evs2, Ok plan) ->
  requestValidation options = Some validationFunction ->
  validationFunction <> "" ->
  execute_validation env (validation_query validationFunction)
    (validation_bind procedure) = inl err ->
  invokeProcedure toLowerCase env procedure argObj cgiObj files options
  = (evs1 ++ evs2 ++
     [ EvExecute (validation_query validationFunction) (validation_bind procedure) ],
     Throw (Error "Error during the validation of the procedure (RequestValidationFunction)")).
Proof.
  intros Hup Hplan Hvf Hne Hex.
  pose proof (validateProcedure_thrown env procedure options validationFunction
                err Hvf Hne Hex) as Hvalid.
  rewrite invokeProcedure_unfold.
  rewrite (bind_Ok _ _ _ _ Hup). cbn beta.
  rewrite (bind_Ok _ _ _ _ Hplan). cbn beta.
  rewrite (bind_Throw _ _ _ _ Hvalid). reflexivity.
Qed.

(** The way an upload settles has no part in the request. With an
    upload table configured the upload is the first call, and the rest
    of the request is what it is without the table, whether the upload
    succeeds or fails; with no table configured (absent or empty) no
    upload is made and the request runs as if no files had been sent. *)
Lemma upload_settlement_is_dropped
    (procedure : string) (argObj : argObjType) (cgiObj : cgiObjType)
    (files : list File) (options : optionsType) :
  match truthy (doctable options) with
  | Some doctableName =>
      invokeProcedure toLowerCase env procedure argObj cgiObj files options
      = (EvUploadFiles files doctableName ::
           events (invokeProcedure toLowerCase env procedure argObj cgiObj files
                     (withoutDoctable options)),
         outcome (invokeProcedure toLowerCase env procedure argObj cgiObj files
                    (withoutDoctable options)))
  | None =>
      invokeProcedure toLowerCase env procedure argObj cgiObj files options
      = invokeProcedure toLowerCase env procedure argObj cgiObj [] options
      /\ Forall (fun ev => isUpload ev = false)
           (events (invokeProcedure toLowerCase env procedure argObj cgiObj files options))
  end.
Proof.
  assert (Hskip : forall o, truthy (doctable o) = None ->
            forall fs, uploadStep env fs o = ([], Ok tt)).
  { intros o Ho fs. unfold uploadStep.
    destruct (doctable o) as [[|c rest]|]; [reflexivity|discriminate Ho|reflexivity]. }
  destruct (truthy (doctable options)) as [doctableName|] eqn:Htable.
  - assert (Hstep : uploadStep env files options
                    = ([EvUploadFiles files doctableName], Ok tt)).
    { unfold uploadStep. destruct (doctable options) as [[|c rest]|];
        [discriminate Htable| |discriminate Htable].
      injection Htable as <-. reflexivity. }
    rewrite !invokeProcedure_unfold.
    rewrite (Hskip (withoutDoctable options) eq_refl files).
    rewrite (bind_Ok _ _ _ _ Hstep). rewrite (bind_Ok _ _ [] _ eq_refl).
    reflexivity.
  - split.
    + rewrite !invokeProcedure_unfold. now rewrite !(Hskip options Htable).
    + rewrite invokeProcedure_unfold, (Hskip options Htable files).
      rewrite (bind_Ok _ _ _ _ eq_refl). apply after_upload_events.
Qed.

End InvocationClaims.

(** *** The properties on sample requests *)

(** A result of 100000 rows reaches the parser; 100001 rows end the
    request. *)
Lemma row_count_ceiling_witness :
  (exists rest,
     events (invokeProcedure asciiLowerCase
               (answering (inr (Some (mkOutBinds ["page"] None None None (Some 100000)))))
               "!p" [] [] [] (mkOptions None None None))
     = [] ++ [] ++ [] ++
       [ EvCreateLob BLOB;
         EvExecute (getProcedureSQL "p(:argnames, :argvalues);")
           (assign (envelope [] (LobHandle 0))
              [ ("argnames", bind_in_string (Some (ValArr [])));
                ("argvalues", bind_in_string (Some (ValArr []))) ]);
         EvParse (join ["page"]) ] ++ rest)
  /\ invokeProcedure asciiLowerCase
       (answering (inr (Some (mkOutBinds ["page"] None None None (Some 100001)))))
       "!p" [] [] [] (mkOptions None None None)
     = ([] ++ [] ++ [] ++
        [ EvCreateLob BLOB;
          EvExecute (getProcedureSQL "p(:argnames, :argvalues);")
            (assign (envelope [] (LobHandle 0))
               [ ("argnames", bind_in_string (Some (ValArr [])));
                 ("argvalues", bind_in_string (Some (ValArr []))) ]) ],
        Throw (ProcedureError
                 ("Error when retrieving rows. irows=" +:+ quote +:+ "100001" +:+ quote)
                 [] "p(:argnames, :argvalues);"
                 [ ("argnames", bind_in_string (Some (ValArr [])));
                   ("argvalues", bind_in_string (Some (ValArr []))) ])).
Proof.
  split.
  - refine (proj1 (proj2 (proj2
      (row_count_ceiling asciiLowerCase
         (answering (inr (Some (mkOutBinds ["page"] None None None (Some 100000)))))
         "!p" [] [] [] (mkOptions None None None) [] [] []
         (mkPara "p(:argnames, :argvalues);"
            [ ("argnames", bind_in_string (Some (ValArr [])));
              ("argvalues", bind_in_string (Some (ValArr []))) ])
         (LobHandle 0) (mkOutBinds ["page"] None None None (Some 100000))
         eq_refl eq_refl eq_refl eq_refl eq_refl))) eq_refl).
  - refine (proj2 (proj2 (proj2
      (row_count_ceiling asciiLowerCase
         (answering (inr (Some (mkOutBinds ["page"] None None None (Some 100001)))))
         "!p" [] [] [] (mkOptions None None None) [] [] []
         (mkPara "p(:argnames, :argvalues);"
            [ ("argnames", bind_in_string (Some (ValArr [])));
              ("argvalues", bind_in_string (Some (ValArr []))) ])
         (LobHandle 0) (mkOutBinds ["page"] None None None (Some 100001))
         eq_refl eq_refl eq_refl eq_refl eq_refl))) 100001 eq_refl _).
    reflexivity.
Defined.

(** A denied request for [!p]: the validation query, the large object,
    the parser on the fixed text, the response, the release. *)
Lemma denied_request_is_not_invoked_witness :
  invokeProcedure asciiLowerCase (validating (inr (mkValidRes (Some 0))))
    "!p" [("a", ArgString "1")] [("SERVER_SOFTWARE", "gateway")] []
    (mkOptions None (Some "acl.allowed") None)
  = ([] ++ [] ++
     [ EvExecute (validation_query "acl.allowed") (validation_bind "!p");
       EvCreateLob BLOB;
       EvParse "No access to this.";
       EvSend (mkPage "No access to this." (Some "gateway") None None None);
       EvClose (LobHandle 0) ],
     Ok tt).
Proof.
  refine (proj2
    (denied_request_is_not_invoked asciiLowerCase
       (validating (inr (mkValidRes (Some 0))))
       "!p" [("a", ArgString "1")] [("SERVER_SOFTWARE", "gateway")] []
       (mkOptions None (Some "acl.allowed") None) [] []
       (mkPara "p(:argnames, :argvalues);"
          [ ("argnames", bind_in_string (Some (ValArr ["a"])));
            ("argvalues", bind_in_string (Some (ValArr ["1"]))) ])
       "acl.allowed" (mkValidRes (Some 0))
       eq_refl eq_refl eq_refl _ eq_refl eq_refl)
    (LobHandle 0) "No access to this." eq_refl eq_refl eq_refl eq_refl).
  discriminate.
Defined.

(** C6, as stated, fails: the validation query of this request raises,
    and the request is rejected with a plain [Error], not with a
    RequestError. *)
Lemma validation_failure_is_not_a_RequestError :
  execute_validation (validating (inl ORA_06550))
    (validation_query "acl.allowed") (validation_bind "!p") = inl ORA_06550
  /\ outcome (invokeProcedure asciiLowerCase (validating (inl ORA_06550))
                "!p" [] [] [] (mkOptions None (Some "acl.allowed") None))
     = Throw (Error "Error during the validation of the procedure (RequestValidationFunction)")
  /\ ~ (exists message,
          outcome (invokeProcedure asciiLowerCase (validating (inl ORA_06550))
                     "!p" [] [] [] (mkOptions None (Some "acl.allowed") None))
          = Throw (RequestError message)).
Proof.
  split; [reflexivity|]. split; [reflexivity|].
  intros [message H]. discriminate H.
Qed.

Lemma validation_failure_is_plain_Error_witness :
  invokeProcedure asciiLowerCase (validating (inl ORA_06550))
    "!p" [] [] [] (mkOptions None (Some "acl.allowed") None)
  = ([] ++ [] ++
     [ EvExecute (validation_query "acl.allowed") (validation_bind "!p") ],
     Throw (Error "Error during the validation of the procedure (RequestValidationFunction)")).
Proof.
  refine (validation_failure_is_plain_Error asciiLowerCase
            (validating (inl ORA_06550)) "!p" [] [] []
            (mkOptions None (Some "acl.allowed") None) [] []
            (mkPara "p(:argnames, :argvalues);"
               [ ("argnames", bind_in_string (Some (ValArr [])));
                 ("argvalues", bind_in_string (Some (ValArr []))) ])
            "acl.allowed" ORA_06550 eq_refl eq_refl eq_refl _ eq_refl).
  discriminate.
Defined.

(** C9. When the invocation statement raises, or reports 100001 rows,
    or the parser or [send] throws, the request is rejected after the
    large object was created and without any call of [close]; the
    request that succeeds ends with that call. *)
Theorem lob_left_open_on_error_paths :
  events (invokeProcedure asciiLowerCase (answering (inl ORA_06550))
            "!p" [] [] [] (mkOptions None None None))
  = [ EvCreateLob BLOB;
      EvExecute (getProcedureSQL "p(:argnames, :argvalues);")
        (assign (envelope [] (LobHandle 0))
           [ ("argnames", bind_in_string (Some (ValArr [])));
             ("argvalues", bind_in_string (Some (ValArr []))) ]) ]
  /\ outcome (invokeProcedure asciiLowerCase (answering (inl ORA_06550))
                "!p" [] [] [] (mkOptions None None None))
     = Throw (ProcedureError
                ("Error when executing procedure" +:+ nl +:+
                 getProcedureSQL "p(:argnames, :argvalues);" +:+ nl +:+
                 "Error: ORA-06550: line 1, column 7")
                [] "p(:argnames, :argvalues);"
                [ ("argnames", bind_in_string (Some (ValArr [])));
                  ("argvalues", bind_in_string (Some (ValArr []))) ])
  /\ existsb isClose
       (events (invokeProcedure asciiLowerCase
                  (answering (inr (Some (mkOutBinds ["page"] None None None (Some 100001)))))
                  "!p" [] [] [] (mkOptions None None None))) = false
  /\ invokeProcedure asciiLowerCase (responding (inl ORA_06550) (inr tt))
       "!p" [] [] [] (mkOptions None None None)
     = ([ EvCreateLob BLOB;
          EvExecute (getProcedureSQL "p(:argnames, :argvalues);")
            (assign (envelope [] (LobHandle 0))
               [ ("argnames", bind_in_string (Some (ValArr [])));
                 ("argvalues", bind_in_string (Some (ValArr []))) ]);
          EvParse "Hello, world" ],
        Throw (Uncaught ORA_06550))
  /\ invokeProcedure asciiLowerCase (responding (inr "Hello, world") (inl ORA_06550))
       "!p" [] [] [] (mkOptions None None None)
     = ([ EvCreateLob BLOB;
          EvExecute (getProcedureSQL "p(:argnames, :argvalues);")
            (assign (envelope [] (LobHandle 0))
               [ ("argnames", bind_in_string (Some (ValArr [])));
                 ("argvalues", bind_in_string (Some (ValArr []))) ]);
          EvParse "Hello, world";
          EvSend (mkPage "Hello, world" None None None None) ],
        Throw (Uncaught ORA_06550))
  /\ last (events (invokeProcedure asciiLowerCase quietEnv
                     "!p" [] [] [] (mkOptions None None None)))
     = Some (EvClose (LobHandle 0)).
Proof. repeat split; vm_compute; reflexivity. Qed.

(** C7. With the upload table [docs] configured and an upload that
    fails with a ProcedureError, the upload is the first call of the
    request, and the request then goes on to invoke the procedure, to
    send the page and to resolve, where it is due to end with that
    ProcedureError: the promise of [uploadFiles] is dropped. *)
Theorem upload_failure_does_not_abort :
  upload_failure rejectingUploads [tt] "docs"
  = Some ("Unable to insert file", [], "INSERT INTO docs", [])
  /\ uploadFiles rejectingUploads [tt] "docs"
     = ([EvUploadFiles [tt] "docs"],
        Ok (Throw (ProcedureError "Unable to insert file" [] "INSERT INTO docs" [])))
  /\ invokeProcedure asciiLowerCase rejectingUploads "!p" [] [] [tt]
       (mkOptions (Some "docs") None None)
     = ([ EvUploadFiles [tt] "docs";
          EvCreateLob BLOB;
          EvExecute (getProcedureSQL "p(:argnames, :argvalues);")
            (assign (envelope [] (LobHandle 0))
               [ ("argnames", bind_in_string (Some (ValArr [])));
                 ("argvalues", bind_in_string (Some (ValArr []))) ]);
          EvParse "Hello, world";
          EvSend (mkPage "Hello, world" None None None None);
          EvClose (LobHandle 0) ],
        Ok tt).
Proof. repeat split; vm_compute; reflexivity. Qed.

(** ** Further properties of the plan builders *)

Lemma append_assoc (a b c : string) : (a +:+ b) +:+ c = a +:+ b +:+ c.
Proof.
  induction a as [|x a IH]; [reflexivity|exact (f_equal (String x) IH)].
Qed.

(** The statement text the loop builds: a comma goes before every
    argument but the first of the whole loop. *)
Lemma fixArgs_fold_sql argTypes (argObj : argObjType) (s : string) (i : nat) (b : Bind) :
  (fold_left (fixArgs_step argTypes) argObj (s, i, b)).1.1
  = match argObj with
    | [] => s
    | _ => s +:+ (if (0 <? i)%nat then "," else "") +:+ join_with "," (map arg_text argObj)
    end.
Proof.
  revert s i b. induction argObj as [|[key value] argObj IH]; intros s i b.
  - reflexivity.
  - cbn [fold_left fixArgs_step]. rewrite IH.
    destruct argObj as [|kv argObj]; destruct i as [|i];
      cbn [map join_with Nat.ltb Nat.leb]; unfold arg_text; cbn [fst];
      rewrite ?append_assoc; reflexivity.
Qed.

Lemma obj_set_fresh {A} (k : string) (v : A) (o : obj A) :
  k ∉ keys o -> obj_set k v o = o ++ [(k, v)].
Proof.
  unfold keys. induction o as [|[k0 v0] o IH]; simpl; [reflexivity|].
  intros Hk. apply not_elem_of_cons in Hk as [Hne Hk].
  destruct (String.eqb k0 k) eqn:E.
  - apply String.eqb_eq in E. congruence.
  - now rewrite IH.
Qed.

(** The bindings the loop builds for a duplicate-free mapping: one per
    argument, appended in order. *)
Lemma fixArgs_fold_bind argTypes (argObj : argObjType) (s : string) (i : nat) (b : Bind) :
  NoDup (keys argObj) ->
  (forall key, key ∈ keys argObj -> "p_" +:+ key ∉ keys b) ->
  (fold_left (fixArgs_step argTypes) argObj (s, i, b)).2
  = b ++ map (arg_binding argTypes) argObj.
Proof.
  revert s i b. induction argObj as [|[key value] argObj IH]; intros s i b Hnd Hfresh.
  - simpl. now rewrite app_nil_r.
  - apply NoDup_cons in Hnd as [Hkey Hnd]. cbn [fold_left fixArgs_step].
    rewrite IH; [|exact Hnd|].
    + rewrite obj_set_fresh by (apply Hfresh; left).
      now rewrite <- app_assoc.
    + intros key' Hin Hin'. apply keys_obj_set in Hin' as [Heq|Hin'].
      * apply prefix_p_inj in Heq. subst key'. contradiction.
      * apply (Hfresh key'); [now right|exact Hin'].
Qed.

Section FurtherPlanProperties.

Context {File Parsed : Type}.
Variable toLowerCase : string -> string.
Variable env : Env File Parsed.

(** X1. The fixed-argument plan, once the catalog has answered: the
    statement is the procedure name, an opening parenthesis, one
    [key=>:p_key] per argument in the order of the mapping with commas
    in between, and [);]. For a mapping without repeated keys the
    bindings are, in the same order, one [p_key] per argument. *)
Theorem fixed_argument_plan
    (procedure : string) (argObj : argObjType) (names types : list string) :
  execute_arguments env (join_with nl getArguments_sql) (getArguments_bind procedure)
  = inr (ArgumentsOutBinds names types) ->
  exists plan,
    outcome (getFixArgsPara toLowerCase env procedure argObj) = Ok plan
    /\ sql plan
       = procedure +:+ "(" +:+ join_with "," (map arg_text argObj) +:+ ");"
    /\ (NoDup (keys argObj) ->
        bind plan
        = map (arg_binding (fill_argTypes toLowerCase names types ∅)) argObj).
Proof.
  intros Hex. unfold getFixArgsPara, getArguments. cbn zeta. rewrite Hex. simpl.
  pose proof (fixArgs_fold_sql (fill_argTypes toLowerCase names types ∅) argObj
                (procedure +:+ "(") 0 []) as Hsql.
  pose proof (fixArgs_fold_bind (fill_argTypes toLowerCase names types ∅) argObj
                (procedure +:+ "(") 0 []) as Hbind.
  destruct (fold_left _ argObj _) as [[s i] b]. cbn [fst snd] in Hsql, Hbind.
  eexists. split; [reflexivity|]. cbn [sql bind]. split.
  - rewrite Hsql. destruct argObj as [|kv argObj].
    + simpl. now rewrite append_assoc.
    + cbn [Nat.ltb Nat.leb]. now rewrite !append_assoc.
  - intros Hnd. apply Hbind; [exact Hnd|].
    intros key _ Hin. now apply elem_of_nil in Hin.
Qed.

End FurtherPlanProperties.

Lemma fixed_argument_plan_witness :
  exists plan,
    outcome (getFixArgsPara asciiLowerCase quietEnv "pkg.show"
               [("foo", ArgString "1"); ("bar", ArgArray ["2"; "3"])]) = Ok plan
    /\ sql plan = "pkg.show(foo=>:p_foo,bar=>:p_bar);"
    /\ (NoDup ["foo"; "bar"] ->
        bind plan = [ ("p_foo", bind_in_string (Some (ValArr ["1"])));
                      ("p_bar", bind_in_string (Some (ValArr ["2"; "3"]))) ]).
Proof.
  exact (fixed_argument_plan asciiLowerCase quietEnv "pkg.show"
           [("foo", ArgString "1"); ("bar", ArgArray ["2"; "3"])]
           ["FOO"; "BAR"] ["PL/SQL TABLE"; "VARCHAR2"] eq_refl).
Defined.

(** The last element of a list with a decidable property. *)
Lemma last_match (P : string -> Prop) (dec : forall x, Decision (P x)) (l : list string) :
  Exists P l ->
  exists i x, l !! i = Some x /\ P x
              /\ forall j y, (i < j)%nat -> l !! j = Some y -> ~ P y.
Proof.
  induction l as [|a l IH]; intros Hex.
  - now apply Exists_nil in Hex.
  - destruct (decide (Exists P l)) as [Hl|Hl].
    + destruct (IH Hl) as (i & x & Hi & Hx & Hlast).
      exists (S i), x. split; [exact Hi|]. split; [exact Hx|].
      intros [|j] y Hij Hj; [lia|]. apply (Hlast j y); [lia|exact Hj].
    + apply Exists_cons in Hex as [Ha|Hex]; [|contradiction].
      exists 0%nat, a. split; [reflexivity|]. split; [exact Ha|].
      intros [|j] y Hij Hj Hy; [lia|]. apply Hl.
      apply Exists_exists. exists y. split; [|exact Hy].
      apply list_elem_of_lookup. now exists j.
Qed.

Lemma keys_obj_set_NoDup {A} (k : string) (v : A) (o : obj A) :
  NoDup (keys o) -> NoDup (keys (obj_set k v o)).
Proof.
  unfold keys. induction o as [|[k0 v0] o IH]; simpl; intros Hnd.
  - repeat constructor. intros H. now apply elem_of_nil in H.
  - apply NoDup_cons in Hnd as [Hk0 Hnd].
    destruct (String.eqb k0 k) eqn:E; simpl.
    + apply String.eqb_eq in E. subst k0. now apply NoDup_cons.
    + apply NoDup_cons. split; [|now apply IH].
      intros Hin. apply (keys_obj_set k0 k v o) in Hin as [Heq|Hin].
      * subst k0. now rewrite String.eqb_refl in E.
      * contradiction.
Qed.

Lemma fixArgs_fold_NoDup argTypes (argObj : argObjType) (st : string * nat * Bind) :
  NoDup (keys st.2) -> NoDup (keys (fold_left (fixArgs_step argTypes) argObj st).2).
Proof.
  revert st. induction argObj as [|[key value] argObj IH]; intros [[s i] b] Hnd.
  - exact Hnd.
  - cbn [fold_left]. apply IH. cbn [fixArgs_step snd].
    now apply keys_obj_set_NoDup.
Qed.

(** Merging a duplicate-free source whose keys are all new appends it. *)
Lemma assign_disjoint {A} (target source : obj A) :
  NoDup (keys source) ->
  (forall k, k ∈ keys source -> k ∉ keys target) ->
  assign target source = target ++ source.
Proof.
  unfold assign. revert target.
  induction source as [|[k v] source IH]; intros target Hnd Hnew; simpl.
  - now rewrite app_nil_r.
  - unfold keys in Hnd. simpl in Hnd. apply NoDup_cons in Hnd as [Hk Hnd].
    rewrite obj_set_fresh by (apply Hnew; left).
    rewrite IH; [now rewrite <- app_assoc|exact Hnd|].
    intros k' Hin Hin'. unfold keys in Hin'. rewrite map_app in Hin'.
    apply elem_of_app in Hin' as [Hin'|Hin'].
    + apply (Hnew k'); [now right|exact Hin'].
    + simpl in Hin'. apply list_elem_of_singleton in Hin'. subst k'.
      contradiction.
Qed.

Lemma combine_keys_values {A} (o : obj A) : combine (keys o) (values o) = o.
Proof.
  unfold keys, values. induction o as [|[k v] o IH]; simpl; [reflexivity|].
  now rewrite IH.
Qed.

Section FurtherPlanClaims.

Context {File Parsed : Type}.
Variable toLowerCase : string -> string.
Variable env : Env File Parsed.

Lemma fill_argTypes_proto (names types : list string)
    (m : gmap string (option string)) :
  fill_argTypes toLowerCase names types m !! "__proto__" = m !! "__proto__".
Proof.
  revert types m. induction names as [|name names IH]; intros types m; simpl.
  - reflexivity.
  - rewrite IH. unfold argTypes_set.
    destruct (String.eqb (toLowerCase name) "__proto__") eqn:E; [reflexivity|].
    apply lookup_insert_ne. intros Heq. rewrite Heq in E.
    discriminate E.
Qed.

(** X2. The loop of [getFixArgsPara] takes a key for table-typed exactly
    when the last catalog row whose lower-cased name is that key has the
    type ['PL/SQL TABLE'] (and the key is not [__proto__]); a row past
    the end of [types] has no type and promotes nothing. *)
Theorem table_promotion_condition (names types : list string) (key : string) :
  isTable (fill_argTypes toLowerCase names types ∅) key = true
  <-> exists i name,
        names !! i = Some name
        /\ toLowerCase name = key
        /\ key <> "__proto__"
        /\ (forall j name', (i < j)%nat -> names !! j = Some name' ->
                            toLowerCase name' <> key)
        /\ types !! i = Some "PL/SQL TABLE".
Proof.
  unfold isTable. split.
  - destruct (fill_argTypes toLowerCase names types ∅ !! key) as [[t|]|] eqn:E;
      try discriminate.
    intros Ht. apply String.eqb_eq in Ht. subst t.
    assert (Hex : Exists (fun name => toLowerCase name = key) names).
    { apply fill_argTypes_keys in E as [(name & Hin & ->)|E].
      - apply Exists_exists. now exists name.
      - now rewrite lookup_empty in E. }
    apply last_match in Hex as (i & name & Hi & Hname & Hlast);
      [|intros x; apply decide; apply _].
    assert (Hproto : key <> "__proto__").
    { intros ->. rewrite fill_argTypes_proto, lookup_empty in E. discriminate E. }
    exists i, name. repeat split; try assumption.
    subst key.
    rewrite (fill_argTypes_last toLowerCase names types ∅ i name Hi Hproto Hlast) in E.
    now injection E.
  - intros (i & name & Hi & <- & Hproto & Hlast & Ht).
    rewrite (fill_argTypes_last toLowerCase names types ∅ i name Hi Hproto Hlast).
    rewrite Ht. apply String.eqb_refl.
Qed.

(** X3. [getProcedure] queries the catalog once in fixed-argument mode,
    whether the query succeeds or not, and calls nothing in the two
    other modes; it can only fail in fixed-argument mode, and then with
    a RequestError. *)
Theorem getProcedure_database_calls
    (procedure : string) (argObj : argObjType) (options : optionsType) :
  events (getProcedure toLowerCase env procedure argObj options)
  = (if usesCatalog options procedure
     then [EvExecute (join_with nl getArguments_sql) (getArguments_bind procedure)]
     else [])
  /\ (forall e,
        outcome (getProcedure toLowerCase env procedure argObj options) = Throw e ->
        usesCatalog options procedure = true /\ isRequestError e = true).
Proof.
  assert (Hfix :
    events (getFixArgsPara toLowerCase env procedure argObj)
    = [EvExecute (join_with nl getArguments_sql) (getArguments_bind procedure)]
    /\ forall e, outcome (getFixArgsPara toLowerCase env procedure argObj) = Throw e ->
                 isRequestError e = true).
  { unfold getFixArgsPara, getArguments. cbn zeta.
    destruct (execute_arguments env _ _) as [err|[|names types]]; simpl.
    - split; [reflexivity|]. now intros e [= <-].
    - split; [reflexivity|]. now intros e [= <-].
    - destruct (fold_left _ argObj _) as [[s i] b]. simpl.
      split; [reflexivity|]. intros e H. discriminate H. }
  unfold getProcedure, usesCatalog. cbn zeta.
  destruct (pathAlias options) as [pa|];
    [destruct (String.eqb (alias pa) procedure)|];
    cbn [negb andb];
    try (destruct (String.eqb (substring01 procedure) "!"); cbn [negb];
         [rewrite getVarArgsPara_eq|destruct Hfix as [Hev Herr]; rewrite Hev]);
    (split; [reflexivity|]); intros e H; try discriminate H.
  - split; [reflexivity|]. now apply Herr.
  - split; [reflexivity|]. now apply Herr.
Qed.

(** X4. The bindings handed to the invocation statement are the nine
    fixed bindings followed by the bindings of the plan, each unchanged
    and in order. *)
Theorem merged_bindings
    (procedure : string) (argObj : argObjType) (options : optionsType)
    (plan : para) (cgiObj : cgiObjType) (fileBlob : Lob) :
  outcome (getProcedure toLowerCase env procedure argObj options) = Ok plan ->
  assign (envelope cgiObj fileBlob) (bind plan)
  = envelope cgiObj fileBlob ++ bind plan.
Proof.
  intros Hplan. apply assign_disjoint.
  - unfold getProcedure in Hplan. cbn zeta in Hplan.
    assert (Hname : outcome (if String.eqb (substring01 procedure) "!"
                             then getVarArgsPara procedure argObj
                             else getFixArgsPara toLowerCase env procedure argObj)
                    = Ok plan -> NoDup (keys (bind plan))).
    { destruct (String.eqb (substring01 procedure) "!").
      - rewrite getVarArgsPara_eq. intros [= <-]. simpl.
        repeat constructor; rewrite ?elem_of_cons, ?elem_of_nil;
          intuition discriminate.
      - intros H. apply getFixArgsPara_inv in H as [argTypes Hb].
        rewrite Hb. apply fixArgs_fold_NoDup. constructor. }
    destruct (pathAlias options) as [pa|]; [|exact (Hname Hplan)].
    destruct (String.eqb (alias pa) procedure); [|exact (Hname Hplan)].
    injection Hplan as <-. simpl. repeat constructor.
    intros H. now apply elem_of_nil in H.
  - intros k Hk.
    exact (plan_key_not_in_envelope toLowerCase env procedure argObj options
             plan cgiObj fileBlob k Hplan Hk).
Qed.

End FurtherPlanClaims.

(** X5. The three CGI bindings are parallel: [cginames] and [cgivalues]
    have the length bound as [cgicount], and pairing them position by
    position gives back the CGI mapping. *)
Theorem cgi_arrays_are_parallel (cgiObj : cgiObjType) (fileBlob : Lob) :
  exists cginames cgivalues,
    obj_get "cginames" (envelope cgiObj fileBlob)
    = Some (Desc (mkBind BIND_IN STRING (Some (ValArr cginames)) None None))
    /\ obj_get "cgivalues" (envelope cgiObj fileBlob)
       = Some (Desc (mkBind BIND_IN STRING (Some (ValArr cgivalues)) None None))
    /\ obj_get "cgicount" (envelope cgiObj fileBlob)
       = Some (Desc (mkBind BIND_IN NUMBER
                       (Some (ValNum (Z.of_nat (List.length cginames)))) None None))
    /\ List.length cginames = List.length cgivalues
    /\ combine cginames cgivalues = cgiObj.
Proof.
  exists (keys cgiObj), (values cgiObj). repeat split.
  - unfold keys, values. now rewrite !length_map.
  - apply combine_keys_values.
Qed.

Lemma merged_bindings_witness :
  assign (envelope [("SERVER_SOFTWARE", "gateway")] (LobHandle 0))
    [ ("argnames", bind_in_string (Some (ValArr ["a"])));
      ("argvalues", bind_in_string (Some (ValArr ["1"]))) ]
  = envelope [("SERVER_SOFTWARE", "gateway")] (LobHandle 0)
    ++ [ ("argnames", bind_in_string (Some (ValArr ["a"])));
         ("argvalues", bind_in_string (Some (ValArr ["1"]))) ].
Proof.
  exact (merged_bindings asciiLowerCase quietEnv "!p" [("a", ArgString "1")]
           (mkOptions None None None)
           (mkPara "p(:argnames, :argvalues);"
              [ ("argnames", bind_in_string (Some (ValArr ["a"])));
                ("argvalues", bind_in_string (Some (ValArr ["1"]))) ])
           [("SERVER_SOFTWARE", "gateway")] (LobHandle 0) eq_refl).
Defined.

(** ** Further properties of the invocation *)

Section FurtherInvocation.

Context {File Parsed : Type}.
Variable toLowerCase : string -> string.
Variable env : Env File Parsed.

Lemma bind_Ok_inv {A B} (m : M File Parsed A) (f : A -> M File Parsed B) (b : B) :
  outcome (m ≫= f) = Ok b ->
  exists a, outcome m = Ok a
            /\ events (m ≫= f) = events m ++ events (f a)
            /\ outcome (f a) = Ok b.
Proof.
  destruct m as [evs [a|e]]; simpl; [|discriminate].
  intros H. exists a. repeat split. exact H.
Qed.

Lemma outcome_bind {A B} (m : M File Parsed A) (f : A -> M File Parsed B) :
  outcome (m ≫= f)
  = match outcome m with Ok a => outcome (f a) | Throw e => Throw e end.
Proof. now destruct m as [evs [a|e]]. Qed.

(** Steps 5 to 8 up to the call of [close], when nothing before it
    throws. *)
Lemma processResults_run
    (plan : para) (cgiObj : cgiObjType) (lob : Lob) (outBinds : outBindsType)
    (pageComponents : Parsed) (blob : option Buffer) :
  tooManyRows outBinds = false ->
  parse env (join (out_lines outBinds)) = inr pageComponents ->
  download_read env outBinds blob ->
  send env (mkPage pageComponents (obj_get "SERVER_SOFTWARE" cgiObj)
              (out_fileType outBinds) (out_fileSize outBinds) blob) = inr tt ->
  processResults env plan cgiObj lob (Some outBinds)
  = (EvParse (join (out_lines outBinds)) :: download_calls outBinds ++
     [ EvSend (mkPage pageComponents (obj_get "SERVER_SOFTWARE" cgiObj)
                 (out_fileType outBinds) (out_fileSize outBinds) blob);
       EvClose lob ],
     match close env lob with
     | inl err => Throw (Uncaught err)
     | inr _ => Ok tt
     end).
Proof.
  intros Hrows Hparse Hblob Hsend. unfold processResults, download_calls. cbn.
  rewrite Hrows. cbn. rewrite Hparse. cbn.
  unfold download_read in Hblob.
  destruct (out_fileBlob outBinds) as [l|].
  - destruct Hblob as (buffer & Hread & ->). cbn. rewrite Hread. cbn.
    rewrite Hsend. cbn. now destruct (close env lob).
  - subst blob. cbn. rewrite Hsend. cbn. now destruct (close env lob).
Qed.

(** When steps 5 to 8 resolve, [close] on the large object of step 4 was
    their last call and their only call of [close]. *)
Lemma processResults_Ok_inv
    (plan : para) (cgiObj : cgiObjType) (lob : Lob) (result : option outBindsType) :
  outcome (processResults env plan cgiObj lob result) = Ok tt ->
  exists front,
    events (processResults env plan cgiObj lob result) = front ++ [EvClose lob]
    /\ Forall (fun ev => isClose ev = false) front.
Proof.
  unfold processResults. destruct result as [outBinds|]; [|discriminate].
  cbn. destruct (tooManyRows outBinds); [discriminate|].
  cbn. destruct (parse env _) as [err|pageComponents]; [discriminate|].
  cbn. destruct (out_fileBlob outBinds) as [l|];
    [cbn; destruct (streamToBuffer env l) as [err|buffer]; [discriminate|]|];
    cbn; (destruct (send env _) as [err|[]]; [discriminate|]);
    cbn; (destruct (close env lob) as [err|[]]; [discriminate|]);
    cbn; intros _;
    match goal with
    | |- exists front, ?l = _ /\ _ => exists (removelast l)
    end;
    (split; [reflexivity|]); repeat constructor.
Qed.

(** X6. Only the answer 1 grants. A request is granted when no
    validation function is configured (absent or empty), without any
    query; otherwise one query is made and the request is granted
    exactly when the answer carries [ret = 1], so 0, any other number
    and a missing [outBinds] deny. *)
Theorem validation_grants_on_one_only
    (procedure : string) (options : optionsType)
    (evs : list (Event File Parsed)) (validOperation : bool) :
  validateProcedure env procedure options = (evs, Ok validOperation) ->
  match truthy (requestValidation options) with
  | None => evs = [] /\ validOperation = true
  | Some validationFunction =>
      evs = [EvExecute (validation_query validationFunction) (validation_bind procedure)]
      /\ exists requestValidRes,
           execute_validation env (validation_query validationFunction)
             (validation_bind procedure) = inr requestValidRes
           /\ (validOperation = true <-> valid_outBinds requestValidRes = Some 1)
  end.
Proof.
  unfold validateProcedure.
  destruct (truthy (requestValidation options)) as [validationFunction|].
  - cbn zeta. unfold raw_map, call. cbn [fst snd].
    destruct (execute_validation env _ _) as [err|res] eqn:Hex; simpl;
      [discriminate|].
    intros [= <- <-]. split; [reflexivity|]. exists res. split; [reflexivity|].
    unfold validResult. destruct (valid_outBinds res) as [ret|]; [|easy].
    destruct (Z.eqb_spec ret 0) as [->|H0]; [easy|].
    destruct (Z.eqb_spec ret 1) as [->|H1]; [easy|].
    split; [discriminate|]. intros [= ->]. contradiction.
  - simpl. now intros [= <- <-].
Qed.

(** X7. In fixed-argument mode the answer of the catalog query decides
    the request: a query that raises ends it with a RequestError
    carrying the query text and the stack of what was raised, a
    malformed answer ends it with the RequestError [getArguments:
    invalid results] (in both cases nothing else is called), and any
    other answer yields a plan. *)
Theorem catalog_answer_decides
    (procedure : string) (argObj : argObjType) (cgiObj : cgiObjType)
    (files : list File) (options : optionsType)
    (evs1 : list (Event File Parsed)) :
  uploadStep env files options = (evs1, Ok tt) ->
  usesCatalog options procedure = true ->
  match execute_arguments env (join_with nl getArguments_sql)
          (getArguments_bind procedure) with
  | inl err =>
      invokeProcedure toLowerCase env procedure argObj cgiObj files options
      = (evs1 ++ [EvExecute (join_with nl getArguments_sql) (getArguments_bind procedure)],
         Throw (RequestError (catalog_failure_message err)))
  | inr InvalidResults =>
      invokeProcedure toLowerCase env procedure argObj cgiObj files options
      = (evs1 ++ [EvExecute (join_with nl getArguments_sql) (getArguments_bind procedure)],
         Throw (RequestError "getArguments: invalid results"))
  | inr (ArgumentsOutBinds names types) =>
      exists plan,
        getProcedure toLowerCase env procedure argObj options
        = ([EvExecute (join_with nl getArguments_sql) (getArguments_bind procedure)],
           Ok plan)
  end.
Proof.
  intros Hup Hmode.
  assert (Hget : getProcedure toLowerCase env procedure argObj options
                 = getFixArgsPara toLowerCase env procedure argObj).
  { unfold usesCatalog in Hmode. unfold getProcedure. cbn zeta.
    destruct (pathAlias options) as [pa|];
      [destruct (String.eqb (alias pa) procedure); [discriminate Hmode|]|];
      now destruct (String.eqb (substring01 procedure) "!"). }
  destruct (execute_arguments env _ _) as [err|[|names types]] eqn:Hex.
  - rewrite invokeProcedure_unfold, (bind_Ok _ _ _ _ Hup). cbn beta.
    rewrite Hget. unfold getFixArgsPara, getArguments. cbn zeta. rewrite Hex.
    reflexivity.
  - rewrite invokeProcedure_unfold, (bind_Ok _ _ _ _ Hup). cbn beta.
    rewrite Hget. unfold getFixArgsPara, getArguments. cbn zeta. rewrite Hex.
    reflexivity.
  - rewrite Hget.
    destruct (getFixArgsPara_Ok toLowerCase env procedure argObj names types Hex)
      as (plan & Hplan & _).
    now exists plan.
Qed.

(** X8. A statement that resolves with no result ends the request with
    the ProcedureError [Error when retrieving rows]; nothing is called
    after the statement. *)
Theorem missing_result_ends_request
    (procedure : string) (argObj : argObjType) (cgiObj : cgiObjType)
    (files : list File) (options : optionsType)
    (evs1 evs2 evs3 : list (Event File Parsed)) (plan : para) (lob : Lob) :
  uploadStep env files options = (evs1, Ok tt) ->
  getProcedure toLowerCase env procedure argObj options = (evs2, Ok plan) ->
  validateProcedure env procedure options = (evs3, Ok true) ->
  createLob env BLOB = inr lob ->
  execute_procedure env (getProcedureSQL (sql plan))
    (assign (envelope cgiObj lob) (bind plan)) = inr None ->
  invokeProcedure toLowerCase env procedure argObj cgiObj files options
  = (evs1 ++ evs2 ++ evs3 ++
     [ EvCreateLob BLOB;
       EvExecute (getProcedureSQL (sql plan))
         (assign (envelope cgiObj lob) (bind plan)) ],
     Throw (ProcedureError "Error when retrieving rows" cgiObj (sql plan) (bind plan))).
Proof.
  intros Hup Hplan Hvalid Hlob Hexec.
  rewrite (invokeProcedure_run _ _ _ _ _ _ _ _ _ _ _ _ _ Hup Hplan Hvalid Hlob).
  rewrite (executeStatement_answer _ _ _ _ _ _ Hexec).
  reflexivity.
Qed.

(** X9. The request that resolves. With a granted validation, a result
    within the row ceiling and no collaborator throwing, the calls after
    the statement are the parser on the lines joined without separator,
    [streamToBuffer] on the download if the result carries one, [send]
    and [close]; the page sent is what the parser returned with the
    server name of the CGI mapping ([SERVER_SOFTWARE], possibly absent),
    the file type and size of the result and the bytes read. *)
Theorem resolved_request
    (procedure : string) (argObj : argObjType) (cgiObj : cgiObjType)
    (files : list File) (options : optionsType)
    (evs1 evs2 evs3 : list (Event File Parsed)) (plan : para) (lob : Lob)
    (outBinds : outBindsType) (pageComponents : Parsed) (blob : option Buffer) :
  uploadStep env files options = (evs1, Ok tt) ->
  getProcedure toLowerCase env procedure argObj options = (evs2, Ok plan) ->
  validateProcedure env procedure options = (evs3, Ok true) ->
  createLob env BLOB = inr lob ->
  execute_procedure env (getProcedureSQL (sql plan))
    (assign (envelope cgiObj lob) (bind plan)) = inr (Some outBinds) ->
  tooManyRows outBinds = false ->
  parse env (join (out_lines outBinds)) = inr pageComponents ->
  download_read env outBinds blob ->
  send env (mkPage pageComponents (obj_get "SERVER_SOFTWARE" cgiObj)
              (out_fileType outBinds) (out_fileSize outBinds) blob) = inr tt ->
  close env lob = inr tt ->
  invokeProcedure toLowerCase env procedure argObj cgiObj files options
  = (evs1 ++ evs2 ++ evs3 ++
     [ EvCreateLob BLOB;
       EvExecute (getProcedureSQL (sql plan))
         (assign (envelope cgiObj lob) (bind plan));
       EvParse (join (out_lines outBinds)) ] ++
     download_calls outBinds ++
     [ EvSend (mkPage pageComponents (obj_get "SERVER_SOFTWARE" cgiObj)
                 (out_fileType outBinds) (out_fileSize outBinds) blob);
       EvClose lob ],
     Ok tt).
Proof.
  intros Hup Hplan Hvalid Hlob Hexec Hrows Hparse Hblob Hsend Hclose.
  rewrite (invokeProcedure_run _ _ _ _ _ _ _ _ _ _ _ _ _ Hup Hplan Hvalid Hlob).
  rewrite (executeStatement_answer _ _ _ _ _ _ Hexec).
  rewrite (bind_Ok _ _ _ _ eq_refl).
  rewrite (processResults_run plan cgiObj lob outBinds pageComponents blob
             Hrows Hparse Hblob Hsend).
  rewrite Hclose. reflexivity.
Qed.

(** X10. A [close] that throws rejects the request with what it threw,
    after the response has been sent. *)
Theorem close_failure_after_send
    (procedure : string) (argObj : argObjType) (cgiObj : cgiObjType)
    (files : list File) (options : optionsType)
    (evs1 evs2 evs3 : list (Event File Parsed)) (plan : para) (lob : Lob)
    (outBinds : outBindsType) (pageComponents : Parsed) (blob : option Buffer)
    (err : Thrown) :
  uploadStep env files options = (evs1, Ok tt) ->
  getProcedure toLowerCase env procedure argObj options = (evs2, Ok plan) ->
  validateProcedure env procedure options = (evs3, Ok true) ->
  createLob env BLOB = inr lob ->
  execute_procedure env (getProcedureSQL (sql plan))
    (assign (envelope cgiObj lob) (bind plan)) = inr (Some outBinds) ->
  tooManyRows outBinds = false ->
  parse env (join (out_lines outBinds)) = inr pageComponents ->
  download_read env outBinds blob ->
  send env (mkPage pageComponents (obj_get "SERVER_SOFTWARE" cgiObj)
              (out_fileType outBinds) (out_fileSize outBinds) blob) = inr tt ->
  close env lob = inl err ->
  invokeProcedure toLowerCase env procedure argObj cgiObj files options
  = (evs1 ++ evs2 ++ evs3 ++
     [ EvCreateLob BLOB;
       EvExecute (getProcedureSQL (sql plan))
         (assign (envelope cgiObj lob) (bind plan));
       EvParse (join (out_lines outBinds)) ] ++
     download_calls outBinds ++
     [ EvSend (mkPage pageComponents (obj_get "SERVER_SOFTWARE" cgiObj)
                 (out_fileType outBinds) (out_fileSize outBinds) blob);
       EvClose lob ],
     Throw (Uncaught err)).
Proof.
  intros Hup Hplan Hvalid Hlob Hexec Hrows Hparse Hblob Hsend Hclose.
  rewrite (invokeProcedure_run _ _ _ _ _ _ _ _ _ _ _ _ _ Hup Hplan Hvalid Hlob).
  rewrite (executeStatement_answer _ _ _ _ _ _ Hexec).
  rewrite (bind_Ok _ _ _ _ eq_refl).
  rewrite (processResults_run plan cgiObj lob outBinds pageComponents blob
             Hrows Hparse Hblob Hsend).
  rewrite Hclose. reflexivity.
Qed.

Lemma bind_Throw_inv {A B} (m : M File Parsed A) (f : A -> M File Parsed B) (e : JsError) :
  outcome (m ≫= f) = Throw e ->
  outcome m = Throw e \/ exists a, outcome m = Ok a /\ outcome (f a) = Throw e.
Proof.
  destruct m as [evs [a|e']]; simpl; intros H.
  - right. exists a. split; [reflexivity|exact H].
  - left. now injection H as ->.
Qed.

Lemma processResults_diagnoses
    (plan : para) (cgiObj : cgiObjType) (lob : Lob) (result : option outBindsType)
    (e : JsError) :
  outcome (processResults env plan cgiObj lob result) = Throw e ->
  diagnoses cgiObj plan e.
Proof.
  unfold processResults. destruct result as [outBinds|];
    [|now intros [= <-]].
  cbn. destruct (tooManyRows outBinds); [now intros [= <-]|].
  cbn. destruct (parse env _) as [err|pageComponents]; [now intros [= <-]|].
  cbn. destruct (out_fileBlob outBinds) as [l|];
    [cbn; destruct (streamToBuffer env l) as [err|buffer]; [now intros [= <-]|]|];
    cbn; (destruct (send env _) as [err|[]]; [now intros [= <-]|]);
    cbn; (destruct (close env lob) as [err|[]]; [now intros [= <-]|]);
    cbn; discriminate.
Qed.

(** X11. Whenever the request resolves, the large object created in step
    4 has been closed: [close] on it is the last call of the request,
    and the only call of [close]. *)
Theorem resolved_request_closes
    (procedure : string) (argObj : argObjType) (cgiObj : cgiObjType)
    (files : list File) (options : optionsType) :
  outcome (invokeProcedure toLowerCase env procedure argObj cgiObj files options)
  = Ok tt ->
  exists lob evs,
    createLob env BLOB = inr lob
    /\ events (invokeProcedure toLowerCase env procedure argObj cgiObj files options)
       = evs ++ [EvClose lob]
    /\ Forall (fun ev => isClose ev = false) evs
    /\ EvCreateLob BLOB ∈ evs.
Proof.
  rewrite invokeProcedure_unfold. intros H.
  apply bind_Ok_inv in H as ([] & _ & E1 & H).
  apply bind_Ok_inv in H as (plan & _ & E2 & H).
  apply bind_Ok_inv in H as (validOperation & _ & E3 & H).
  apply bind_Ok_inv in H as (lob & Hlob & E4 & H).
  apply bind_Ok_inv in H as (result & _ & E5 & H).
  apply processResults_Ok_inv in H as (front & E6 & Hfront).
  rewrite E1, E2, E3, E4, E5, E6.
  unfold await, call, outcome in Hlob. cbn [fst snd] in Hlob.
  destruct (createLob env BLOB) as [err|lob'] eqn:Hcreate; [discriminate Hlob|].
  injection Hlob as ->.
  exists lob. eexists. split; [reflexivity|]. split; [|split].
  - rewrite !app_assoc. reflexivity.
  - repeat apply Forall_app_2; try exact Hfront.
    + eapply Forall_impl; [apply uploadStep_events|]. now intros [].
    + eapply Forall_impl; [apply getProcedure_events|]. now intros ev ->.
    + eapply Forall_impl; [apply validateProcedure_events|]. now intros [].
    + repeat constructor.
    + eapply Forall_impl; [apply executeStatement_events|]. now intros [].
  - rewrite !elem_of_app. left. left. right.
    unfold await, call, events. cbn [fst]. left.
Qed.

(** X12. Whatever ProcedureError rejects a request whose upload step
    passed carries the CGI mapping of the request, the statement text of
    its plan and the bindings of its plan (without the fixed
    bindings). *)
Theorem ProcedureError_carries_the_plan
    (procedure : string) (argObj : argObjType) (cgiObj : cgiObjType)
    (files : list File) (options : optionsType)
    (evs1 evs2 : list (Event File Parsed)) (plan : para)
    (message : string) (c : cgiObjType) (s : string) (b : Bind) :
  uploadStep env files options = (evs1, Ok tt) ->
  getProcedure toLowerCase env procedure argObj options = (evs2, Ok plan) ->
  outcome (invokeProcedure toLowerCase env procedure argObj cgiObj files options)
  = Throw (ProcedureError message c s b) ->
  c = cgiObj /\ s = sql plan /\ b = bind plan.
Proof.
  intros Hup Hplan H. rewrite invokeProcedure_unfold in H.
  rewrite (bind_Ok _ _ _ _ Hup) in H. cbn beta in H.
  rewrite (bind_Ok _ _ _ _ Hplan) in H. cbn beta in H.
  unfold outcome at 1 2 in H. cbn [snd] in H.
  change (diagnoses cgiObj plan (ProcedureError message c s b)).
  revert H. generalize (ProcedureError message c s b). intros e H.
  apply bind_Throw_inv in H as [H|(validOperation & _ & H)].
  { unfold validateProcedure in H.
    destruct (truthy (requestValidation options)); [|discriminate H].
    cbn zeta in H. unfold raw_map, call in H. cbn [fst snd] in H.
    destruct (execute_validation env _ _); [|discriminate H].
    now injection H as <-. }
  apply bind_Throw_inv in H as [H|(lob & _ & H)].
  { unfold await, call, outcome in H. cbn [fst snd] in H.
    destruct (createLob env BLOB); [|discriminate H]. now injection H as <-. }
  apply bind_Throw_inv in H as [H|(result & _ & H)].
  { unfold executeStatement in H. destruct validOperation; [|discriminate H].
    unfold call, try_catch in H. destruct (execute_procedure env _ _);
      [|discriminate H].
    injection H as <-. simpl. tauto. }
  now apply processResults_diagnoses in H.
Qed.

(** X13. When executing the invocation statement raises, the request
    ends with a ProcedureError whose message is [Error when executing
    procedure], the statement and the text of what was raised (empty
    when that is not an [Error]), and which carries the CGI mapping and
    the plan; nothing is called after the statement. *)
Theorem statement_failure_ends_request
    (procedure : string) (argObj : argObjType) (cgiObj : cgiObjType)
    (files : list File) (options : optionsType)
    (evs1 evs2 evs3 : list (Event File Parsed)) (plan : para) (lob : Lob)
    (err : Thrown) :
  uploadStep env files options = (evs1, Ok tt) ->
  getProcedure toLowerCase env procedure argObj options = (evs2, Ok plan) ->
  validateProcedure env procedure options = (evs3, Ok true) ->
  createLob env BLOB = inr lob ->
  execute_procedure env (getProcedureSQL (sql plan))
    (assign (envelope cgiObj lob) (bind plan)) = inl err ->
  invokeProcedure toLowerCase env procedure argObj cgiObj files options
  = (evs1 ++ evs2 ++ evs3 ++
     [ EvCreateLob BLOB;
       EvExecute (getProcedureSQL (sql plan))
         (assign (envelope cgiObj lob) (bind plan)) ],
     Throw (ProcedureError
              ("Error when executing procedure" +:+ nl +:+
               getProcedureSQL (sql plan) +:+ nl +:+
               (if instanceofError err then thrown_toString err else ""))
              cgiObj (sql plan) (bind plan))).
Proof.
  intros Hup Hplan Hvalid Hlob Hexec.
  rewrite (invokeProcedure_run _ _ _ _ _ _ _ _ _ _ _ _ _ Hup Hplan Hvalid Hlob).
  rewrite (bind_Throw _ _ _ _ (executeStatement_thrown _ _ _ _ _ _ Hexec)).
  reflexivity.
Qed.

End FurtherInvocation.

(** *** The further properties on sample requests *)

(** The answer 2 denies. *)
Lemma validation_grants_on_one_only_witness :
  [EvExecute (File := unit) (Parsed := string)
     (validation_query "acl.allowed") (validation_bind "p")]
  = [EvExecute (validation_query "acl.allowed") (validation_bind "p")]
  /\ exists requestValidRes,
       execute_validation (validating (inr (mkValidRes (Some 2))))
         (validation_query "acl.allowed") (validation_bind "p") = inr requestValidRes
       /\ (false = true <-> valid_outBinds requestValidRes = Some 1).
Proof.
  exact (validation_grants_on_one_only (validating (inr (mkValidRes (Some 2))))
           "p" (mkOptions None (Some "acl.allowed") None)
           [EvExecute (validation_query "acl.allowed") (validation_bind "p")] false
           eq_refl).
Defined.

(** A catalog that is down. *)
Lemma catalog_answer_decides_witness :
  invokeProcedure asciiLowerCase catalogDown "p" [("a", ArgString "1")] [] []
    (mkOptions None None None)
  = ([] ++ [EvExecute (join_with nl getArguments_sql) (getArguments_bind "p")],
     Throw (RequestError (catalog_failure_message ORA_06550))).
Proof.
  exact (catalog_answer_decides asciiLowerCase catalogDown "p" [("a", ArgString "1")]
           [] [] (mkOptions None None None) [] eq_refl eq_refl).
Defined.

Lemma missing_result_ends_request_witness :
  invokeProcedure asciiLowerCase (answering (inr None)) "!p" [] [] []
    (mkOptions None None None)
  = ([] ++ [] ++ [] ++
     [ EvCreateLob BLOB;
       EvExecute (getProcedureSQL "p(:argnames, :argvalues);")
         (assign (envelope [] (LobHandle 0))
            [ ("argnames", bind_in_string (Some (ValArr [])));
              ("argvalues", bind_in_string (Some (ValArr []))) ]) ],
     Throw (ProcedureError "Error when retrieving rows" [] "p(:argnames, :argvalues);"
              [ ("argnames", bind_in_string (Some (ValArr [])));
                ("argvalues", bind_in_string (Some (ValArr []))) ])).
Proof.
  exact (missing_result_ends_request asciiLowerCase (answering (inr None))
           "!p" [] [] [] (mkOptions None None None) [] [] []
           (mkPara "p(:argnames, :argvalues);"
              [ ("argnames", bind_in_string (Some (ValArr [])));
                ("argvalues", bind_in_string (Some (ValArr []))) ])
           (LobHandle 0) eq_refl eq_refl eq_refl eq_refl eq_refl).
Defined.

Lemma statement_failure_ends_request_witness :
  invokeProcedure asciiLowerCase (answering (inl ORA_06550)) "!p" [] [] []
    (mkOptions None None None)
  = ([] ++ [] ++ [] ++
     [ EvCreateLob BLOB;
       EvExecute (getProcedureSQL "p(:argnames, :argvalues);")
         (assign (envelope [] (LobHandle 0))
            [ ("argnames", bind_in_string (Some (ValArr [])));
              ("argvalues", bind_in_string (Some (ValArr []))) ]) ],
     Throw (ProcedureError
              ("Error when executing procedure" +:+ nl +:+
               getProcedureSQL "p(:argnames, :argvalues);" +:+ nl +:+
               "Error: ORA-06550: line 1, column 7")
              [] "p(:argnames, :argvalues);"
              [ ("argnames", bind_in_string (Some (ValArr [])));
                ("argvalues", bind_in_string (Some (ValArr []))) ])).
Proof.
  exact (statement_failure_ends_request asciiLowerCase (answering (inl ORA_06550))
           "!p" [] [] [] (mkOptions None None None) [] [] []
           (mkPara "p(:argnames, :argvalues);"
              [ ("argnames", bind_in_string (Some (ValArr [])));
                ("argvalues", bind_in_string (Some (ValArr []))) ])
           (LobHandle 0) ORA_06550 eq_refl eq_refl eq_refl eq_refl eq_refl).
Defined.

(** A request whose procedure signals a download of five bytes. *)
Lemma resolved_request_witness :
  invokeProcedure asciiLowerCase downloading "!p" [] [("SERVER_SOFTWARE", "gateway")] []
    (mkOptions None None None)
  = ([] ++ [] ++ [] ++
     [ EvCreateLob BLOB;
       EvExecute (getProcedureSQL "p(:argnames, :argvalues);")
         (assign (envelope [("SERVER_SOFTWARE", "gateway")] (LobHandle 0))
            [ ("argnames", bind_in_string (Some (ValArr [])));
              ("argvalues", bind_in_string (Some (ValArr []))) ]);
       EvParse "" ] ++
     [ EvStreamToBuffer (LobHandle 7) ] ++
     [ EvSend (mkPage "" (Some "gateway") (Some "B") (Some 5) (Some "bytes"));
       EvClose (LobHandle 0) ],
     Ok tt).
Proof.
  exact (resolved_request asciiLowerCase downloading "!p" []
           [("SERVER_SOFTWARE", "gateway")] [] (mkOptions None None None) [] [] []
           (mkPara "p(:argnames, :argvalues);"
              [ ("argnames", bind_in_string (Some (ValArr [])));
                ("argvalues", bind_in_string (Some (ValArr []))) ])
           (LobHandle 0)
           (mkOutBinds [] (Some (LobHandle 7)) (Some "B") (Some 5) (Some 0))
           "" (Some "bytes")
           eq_refl eq_refl eq_refl eq_refl eq_refl eq_refl eq_refl
           (ex_intro _ "bytes" (conj eq_refl eq_refl)) eq_refl eq_refl).
Defined.

Lemma close_failure_after_send_witness :
  invokeProcedure asciiLowerCase closeFails "!p" [] [] [] (mkOptions None None None)
  = ([] ++ [] ++ [] ++
     [ EvCreateLob BLOB;
       EvExecute (getProcedureSQL "p(:argnames, :argvalues);")
         (assign (envelope [] (LobHandle 0))
            [ ("argnames", bind_in_string (Some (ValArr [])));
              ("argvalues", bind_in_string (Some (ValArr []))) ]);
       EvParse "Hello, world" ] ++
     [] ++
     [ EvSend (mkPage "Hello, world" None None None None);
       EvClose (LobHandle 0) ],
     Throw (Uncaught ORA_06550)).
Proof.
  exact (close_failure_after_send asciiLowerCase closeFails "!p" [] [] []
           (mkOptions None None None) [] [] []
           (mkPara "p(:argnames, :argvalues);"
              [ ("argnames", bind_in_string (Some (ValArr [])));
                ("argvalues", bind_in_string (Some (ValArr []))) ])
           (LobHandle 0)
           (mkOutBinds ["Hello, "; "world"] None None None (Some 2))
           "Hello, world" None ORA_06550
           eq_refl eq_refl eq_refl eq_refl eq_refl eq_refl eq_refl
           eq_refl eq_refl eq_refl).
Defined.

Lemma resolved_request_closes_witness :
  exists lob evs,
    createLob quietEnv BLOB = inr lob
    /\ events (invokeProcedure asciiLowerCase quietEnv "p" [("foo", ArgString "1")]
                 [] [] (mkOptions None (Some "acl.allowed") None))
       = evs ++ [EvClose lob]
    /\ Forall (fun ev => isClose ev = false) evs
    /\ EvCreateLob BLOB ∈ evs.
Proof.
  exact (resolved_request_closes asciiLowerCase quietEnv "p" [("foo", ArgString "1")]
           [] [] (mkOptions None (Some "acl.allowed") None) eq_refl).
Defined.

(** The ProcedureError of a result of 100001 rows. *)
Lemma ProcedureError_carries_the_plan_witness :
  [("SERVER_SOFTWARE", "gateway")] = [("SERVER_SOFTWARE", "gateway")]
  /\ "p(:argnames, :argvalues);"
     = sql (mkPara "p(:argnames, :argvalues);"
              [ ("argnames", bind_in_string (Some (ValArr [])));
                ("argvalues", bind_in_string (Some (ValArr []))) ])
  /\ [ ("argnames", bind_in_string (Some (ValArr [])));
       ("argvalues", bind_in_string (Some (ValArr []))) ]
     = bind (mkPara "p(:argnames, :argvalues);"
               [ ("argnames", bind_in_string (Some (ValArr [])));
                 ("argvalues", bind_in_string (Some (ValArr []))) ]).
Proof.
  exact (ProcedureError_carries_the_plan asciiLowerCase
           (answering (inr (Some (mkOutBinds ["page"] None None None (Some 100001)))))
           "!p" [] [("SERVER_SOFTWARE", "gateway")] [] (mkOptions None None None) [] []
           (mkPara "p(:argnames, :argvalues);"
              [ ("argnames", bind_in_string (Some (ValArr [])));
                ("argvalues", bind_in_string (Some (ValArr []))) ])
           ("Error when retrieving rows. irows=" +:+ quote +:+ "100001" +:+ quote)
           [("SERVER_SOFTWARE", "gateway")] "p(:argnames, :argvalues);"
           [ ("argnames", bind_in_string (Some (ValArr [])));
             ("argvalues", bind_in_string (Some (ValArr []))) ]
           eq_refl eq_refl eq_refl).
Defined.

Section UploadAndDenial.

Context {File Parsed : Type}.
Variable toLowerCase : string -> string.
Variable env : Env File Parsed.

(** X14. A denial does not hold back the upload: with an upload table
    configured, the files are uploaded first, then the plan is built and
    the validation query is made; when it denies, no statement is
    executed afterwards, and the upload has been made all the same. *)
Theorem upload_precedes_denial
    (procedure : string) (argObj : argObjType) (cgiObj : cgiObjType)
    (files : list File) (options : optionsType) (doctableName : string)
    (evs2 : list (Event File Parsed)) (plan : para)
    (validationFunction : string) (requestValidRes : validResType) :
  doctable options = Some doctableName ->
  doctableName <> "" ->
  upload_failure env files doctableName = None ->
  getProcedure toLowerCase env procedure argObj options = (evs2, Ok plan) ->
  requestValidation options = Some validationFunction ->
  validationFunction <> "" ->
  execute_validation env (validation_query validationFunction)
    (validation_bind procedure) = inr requestValidRes ->
  validResult requestValidRes = false ->
  exists rest,
    events (invokeProcedure toLowerCase env procedure argObj cgiObj files options)
    = EvUploadFiles files doctableName :: evs2 ++
      EvExecute (validation_query validationFunction) (validation_bind procedure) :: rest
    /\ Forall (fun ev => isExecute ev = false) rest.
Proof.
  intros Htable Hne Hupload Hplan Hvf Hvfne Hex Hfalse.
  assert (Hup : uploadStep env files options = ([EvUploadFiles files doctableName], Ok tt)).
  { unfold uploadStep, uploadFiles. rewrite Htable, Hupload.
    destruct doctableName; [contradiction|reflexivity]. }
  pose proof (validateProcedure_answer env procedure options validationFunction
                requestValidRes Hvf Hvfne Hex) as Hvalid.
  rewrite Hfalse in Hvalid.
  rewrite invokeProcedure_unfold.
  rewrite (bind_Ok _ _ _ _ Hup). cbn beta.
  rewrite (bind_Ok _ _ _ _ Hplan). cbn beta.
  rewrite (bind_Ok _ _ _ _ Hvalid). cbn beta.
  eexists. split.
  - unfold events at 1 2 3. cbn [fst app]. reflexivity.
  - apply denied_tail_events.
Qed.

End UploadAndDenial.

Lemma upload_precedes_denial_witness :
  exists rest,
    events (invokeProcedure asciiLowerCase denying "!p" [] [] ["photo.png"]
              (mkOptions (Some "docs") (Some "acl.allowed") None))
    = EvUploadFiles ["photo.png"] "docs" :: [] ++
      EvExecute (validation_query "acl.allowed") (validation_bind "!p") :: rest
    /\ Forall (fun ev => isExecute ev = false) rest.
Proof.
  refine (upload_precedes_denial asciiLowerCase denying "!p" [] [] ["photo.png"]
            (mkOptions (Some "docs") (Some "acl.allowed") None) "docs" []
            (mkPara "p(:argnames, :argvalues);"
               [ ("argnames", bind_in_string (Some (ValArr [])));
                 ("argvalues", bind_in_string (Some (ValArr []))) ])
            "acl.allowed" (mkValidRes (Some 0))
            eq_refl _ eq_refl eq_refl eq_refl _ eq_refl eq_refl);
    discriminate.
Defined.
